(** * marb: an in-memory static file server (main.go)

    A shallow embedding of the loader ([readFile], [loadFiles], [addFile],
    [newFileServer]) and of the request handler ([ServeHTTP] and the
    functions it dispatches to), together with the parts of Go's standard
    library and of the operating system that they observe.

    Layout: library models ([path], [time], [os], [http]), the program,
    sample inputs, then the lemmas. *)

From Stdlib Require Import ZArith Lia List Ascii String DecimalString.
From Stdlib.Strings Require Import Byte.
From stdpp Require Import base option list gmap strings.
Import ListNotations.
Local Open Scope string_scope.

(** ** Errors and fallible results *)

(** Go's [error] values that the program can meet: the errno values of
    the system calls it makes, [io.EOF], and messages built by
    [fmt.Errorf]. *)
Inductive error : Type :=
| ENOENT
| ENOTDIR
| ELOOP
| EISDIR
| EOF
| Errorf (msg : string).

(** [(T, error)] with exactly one side meaningful. *)
Inductive result (A : Type) : Type :=
| Ok (a : A)
| Err (e : error).
Arguments Ok {A} a.
Arguments Err {A} e.

Definition isOk {A} (r : result A) : bool :=
  match r with Ok _ => true | Err _ => false end.

(** ** Package [path] *)

Module path.

Definition isSlash (c : ascii) : bool := Ascii.eqb c "/"%char.

(** The elements of [p] between slashes (empty elements included). *)
Fixpoint split (p : string) : list string :=
  match p with
  | EmptyString => [EmptyString]
  | String c p' =>
      if isSlash c then EmptyString :: split p'
      else match split p' with
           | [] => [String c EmptyString]
           | x :: xs => String c x :: xs
           end
  end.

(** One element of [Clean]'s scan; [out] is the output so far, last
    element first.  A ".." removes the previous element unless there is
    none to remove (only ".." elements so far, or the start of the path). *)
Definition step (rooted : bool) (out : list string) (c : string) : list string :=
  if String.eqb c "" then out
  else if String.eqb c "." then out
  else if String.eqb c ".." then
    match out with
    | top :: rest => if String.eqb top ".." then c :: out else rest
    | [] => if rooted then [] else [c]
    end
  else c :: out.

Definition rooted (p : string) : bool :=
  match p with String c _ => isSlash c | EmptyString => false end.

(** The scan of [Clean] over all of [p]. *)
Definition scan (p : string) : list string :=
  fold_left (step (rooted p)) (split p) [].

Definition render (rooted : bool) (out : list string) : string :=
  if rooted then "/" +:+ String.concat "/" (rev out)
  else match out with
       | [] => "."
       | _ => String.concat "/" (rev out)
       end.

(** [path.Clean]: the shortest path equivalent to [p] by purely lexical
    processing. *)
Definition Clean (p : string) : string :=
  match p with
  | EmptyString => "."
  | _ => render (rooted p) (scan p)
  end.

(** [path.Join]: empty elements before the first non-empty one are
    ignored, the rest is joined with slashes and cleaned. *)
Fixpoint Join (elem : list string) : string :=
  match elem with
  | [] => ""
  | e :: rest =>
      if String.eqb e "" then Join rest else Clean (String.concat "/" elem)
  end.

(** [path.Split]: the part up to and including the final slash, and the
    part after it. *)
Fixpoint Split (p : string) : string * string :=
  match p with
  | EmptyString => ("", "")
  | String c p' =>
      let '(d, f) := Split p' in
      if isSlash c then (String c d, f)
      else if String.eqb d "" then ("", String c f)
      else (String c d, f)
  end.

Fixpoint trimSlashes (p : string) : string :=
  match p with
  | EmptyString => ""
  | String c p' =>
      let t := trimSlashes p' in
      if isSlash c && String.eqb t "" then "" else String c t
  end.

(** [path.Base]: the last element of [p]. *)
Definition Base (p : string) : string :=
  match p with
  | EmptyString => "."
  | _ =>
      let f := snd (Split (trimSlashes p)) in
      if String.eqb f "" then "/" else f
  end.

(** [path.Dir]: all but the last element of [p], cleaned. *)
Definition Dir (p : string) : string := Clean (fst (Split p)).

Fixpoint hasSlash (p : string) : bool :=
  match p with
  | EmptyString => false
  | String c p' => isSlash c || hasSlash p'
  end.

(** [path.Ext]: the suffix from the final dot of the final element. *)
Fixpoint Ext (p : string) : string :=
  match p with
  | EmptyString => ""
  | String c p' =>
      let e := Ext p' in
      if negb (String.eqb e "") then e
      else if Ascii.eqb c "."%char && negb (hasSlash p') then p
      else ""
  end.

(** A file name: not empty, not "." or "..", and without a slash. *)
Definition validName (n : string) : bool :=
  negb (String.eqb n "") && negb (String.eqb n ".") && negb (String.eqb n "..")
  && negb (hasSlash n).

(** The outputs of the scan: elements without slashes, none empty or
    ".", and ".." only at the bottom of an unrooted path. *)
Fixpoint normal (rooted : bool) (out : list string) : bool :=
  match out with
  | [] => true
  | c :: out' =>
      negb (String.eqb c "") && negb (String.eqb c ".") && negb (hasSlash c)
      && (if String.eqb c ".."
          then negb rooted
               && match out' with [] => true | t :: _ => String.eqb t ".." end
          else true)
      && normal rooted out'
  end.

End path.

(** ** Package [time]: an instant, in nanoseconds since the Unix epoch *)

Module time.

Definition Time : Type := Z.

Definition Before (t u : Time) : bool := (t <? u)%Z.

End time.

(** ** Package [os] over a file-system tree

    A regular file carries the size that [stat] reports and the bytes
    that a later [read] finds, so that a file changed between the two
    calls can be described. *)

Module os.

#[warnings="-register-all"]
Inductive node : Type :=
| RegFile (st_size : nat) (data : list byte) (mtime : time.Time)
| Directory (entries : list (string * node)) (mtime : time.Time)
| SymLink (target : string) (mtime : time.Time).

Record filesystem : Type := {
  fsroot : node;
  cwd : list string
}.

Fixpoint find (name : string) (es : list (string * node)) : option node :=
  match es with
  | [] => None
  | (n, ch) :: es' => if String.eqb n name then Some ch else find name es'
  end.

(** The node at a symlink-free list of names below [n]. *)
Fixpoint get (n : node) (comps : list string) : option node :=
  match comps with
  | [] => Some n
  | c :: cs =>
      match n with
      | Directory es _ =>
          match find c es with
          | Some ch => get ch cs
          | None => None
          end
      | _ => None
      end
  end.

Fixpoint distinct (names : list string) : bool :=
  match names with
  | [] => true
  | n :: names' => negb (existsb (String.eqb n) names') && distinct names'
  end.

(** A tree as a file system keeps it: the names in a directory are file
    names and differ from one another. *)
Fixpoint wf (n : node) : bool :=
  match n with
  | Directory es _ =>
      forallb path.validName (map fst es) && distinct (map fst es)
      && forallb (fun e => wf (snd e)) es
  | _ => true
  end.

Definition MAXSYMLINKS : nat := 40.

(** Path resolution.  [cur] is the directory reached so far, [todo] the
    elements still to walk.  A symbolic link in final position is
    returned as such unless [follow] is set. *)
Fixpoint walk (links : nat) (root : node) (follow : bool)
    (cur todo : list string) {struct links} : result node :=
  (fix go (cur todo : list string) {struct todo} : result node :=
     match todo with
     | [] =>
         match get root cur with
         | Some n => Ok n
         | None => Err ENOENT
         end
     | c :: rest =>
         match get root cur with
         | Some (Directory es _) =>
             if String.eqb c "" || String.eqb c "." then go cur rest
             else if String.eqb c ".." then go (removelast cur) rest
             else
               match find c es with
               | None => Err ENOENT
               | Some (SymLink target mt) =>
                   if negb follow && (match rest with [] => true | _ => false end)
                   then Ok (SymLink target mt)
                   else if String.eqb target "" then Err ENOENT
                   else
                     match links with
                     | O => Err ELOOP
                     | S links' =>
                         walk links' root follow
                           (if path.rooted target then [] else cur)
                           (path.split target ++ rest)%list
                     end
               | Some _ => go (cur ++ [c])%list rest
               end
         | Some _ => Err ENOTDIR
         | None => Err ENOENT
         end
     end) cur todo.

Definition namei (fs : filesystem) (follow : bool) (name : string) : result node :=
  if String.eqb name "" then Err ENOENT
  else walk MAXSYMLINKS (fsroot fs) follow
         (if path.rooted name then [] else cwd fs) (path.split name).

(** [os.FileMode] bits. *)
Definition ModeDir : Z := Z.shiftl 1 31.
Definition ModeSymlink : Z := Z.shiftl 1 27.

Record FileInfo : Type := {
  Mode : Z;
  Size : Z;
  ModTime : time.Time
}.

Definition IsDir (fi : FileInfo) : bool := negb (Z.land (Mode fi) ModeDir =? 0)%Z.

(** What [lstat]/[stat] report for a node: the file type is one of
    regular, directory or symbolic link, never two at once. *)
Definition info (n : node) : FileInfo :=
  match n with
  | RegFile sz _ mt => {| Mode := 420; Size := Z.of_nat sz; ModTime := mt |}
  | Directory _ mt => {| Mode := Z.lor ModeDir 493; Size := 4096; ModTime := mt |}
  | SymLink t mt =>
      {| Mode := Z.lor ModeSymlink 511; Size := Z.of_nat (String.length t); ModTime := mt |}
  end.

Definition Lstat (fs : filesystem) (name : string) : result FileInfo :=
  match namei fs false name with
  | Ok n => Ok (info n)
  | Err e => Err e
  end.

Definition Stat (fs : filesystem) (name : string) : result FileInfo :=
  match namei fs true name with
  | Ok n => Ok (info n)
  | Err e => Err e
  end.

(** [os.ReadDir]: the names in a directory. *)
Definition ReadDir (fs : filesystem) (name : string) : result (list string) :=
  match namei fs true name with
  | Ok (Directory es _) => Ok (map fst es)
  | Ok _ => Err ENOTDIR
  | Err e => Err e
  end.

(** [os.Open]: an open file is the node it refers to. *)
Definition Open (fs : filesystem) (name : string) : result node :=
  namei fs true name.

(** [File.Read] into a buffer of [n] zero bytes: one read call, which
    fills at most [n] bytes and reports only how many it filled.  The
    result is the buffer afterwards, the count, and the error. *)
Definition Read (f : node) (n : nat) : list byte * nat * option error :=
  match f with
  | RegFile _ data _ =>
      match n, data with
      | O, _ => ([], O, None)
      | _, [] => (repeat x00 n, O, Some EOF)
      | _, _ =>
          let k := Nat.min n (length data) in
          ((firstn k data ++ repeat x00 (n - k))%list, k, None)
      end
  | _ => (repeat x00 n, O, Some EISDIR)
  end.

End os.

(** ** Library functions taken as given

    The functions of [compress/gzip], [mime], [time] and [net/url] that
    the program calls and whose results the properties below do not look
    into. *)

Class Runtime : Type := {
  (** [gzip.NewWriter(&buf)], [zw.Write(contents)], [zw.Close()]: the
      buffer afterwards and the error of [Write]. *)
  gzipWrite : list byte -> list byte * option error;
  (** [mime.TypeByExtension]; empty when the extension is unknown. *)
  TypeByExtension : string -> string;
  (** [http.DetectContentType]. *)
  DetectContentType : list byte -> string;
  (** [time.Parse(http.TimeFormat, value)]. *)
  ParseHTTPTime : string -> option time.Time;
  (** [t.Format(http.TimeFormat)]. *)
  FormatHTTPTime : time.Time -> string;
  (** Whether [url.Parse] succeeds with an empty scheme and host. *)
  urlIsRelative : string -> bool;
  (** A target that starts with a scheme is not relative. *)
  urlIsRelative_https : forall rest, urlIsRelative ("https://" +:+ rest) = false
}.

(** ** Package [net/http], as seen from a handler *)

Module http.

Abbreviation Header := (gmap string (list string)).

(** Keys are the canonical header names. *)
Definition Get (h : Header) (key : string) : string :=
  match h !! key with
  | Some (v :: _) => v
  | _ => ""
  end.

Definition Set_ (h : Header) (key value : string) : Header :=
  <[key := [value]]> h.

Definition MethodGet : string := "GET".
Definition MethodHead : string := "HEAD".
Definition MethodOptions : string := "OPTIONS".

Definition StatusOK : Z := 200.
Definition StatusNoContent : Z := 204.
Definition StatusMovedPermanently : Z := 301.
Definition StatusNotModified : Z := 304.
Definition StatusBadRequest : Z := 400.
Definition StatusNotFound : Z := 404.
Definition StatusMethodNotAllowed : Z := 405.

Definition StatusText (code : Z) : string :=
  if (code =? 200)%Z then "OK"
  else if (code =? 204)%Z then "No Content"
  else if (code =? 301)%Z then "Moved Permanently"
  else if (code =? 304)%Z then "Not Modified"
  else if (code =? 400)%Z then "Bad Request"
  else if (code =? 404)%Z then "Not Found"
  else if (code =? 405)%Z then "Method Not Allowed"
  else "".

Record Request : Type := {
  Method : string;
  URL_Path : string;
  RequestURI : string;
  Host : string;
  ReqHeader : Header;
  RemoteAddr : string
}.

(** A [ResponseWriter] that records what the handler does to it: the
    header map, the status and the header map at the time the status was
    written, and the body written so far. *)
Record ResponseWriter : Type := {
  RespHeader : Header;
  wroteHeader : option (Z * Header);
  RespBody : list byte
}.

Definition NewRecorder : ResponseWriter :=
  {| RespHeader := ∅; wroteHeader := None; RespBody := [] |}.

Definition setHeader (w : ResponseWriter) (key value : string) : ResponseWriter :=
  {| RespHeader := Set_ (RespHeader w) key value;
     wroteHeader := wroteHeader w;
     RespBody := RespBody w |}.

Definition WriteHeader (w : ResponseWriter) (code : Z) : ResponseWriter :=
  match wroteHeader w with
  | Some _ => w
  | None =>
      {| RespHeader := RespHeader w;
         wroteHeader := Some (code, RespHeader w);
         RespBody := RespBody w |}
  end.

Definition Write (w : ResponseWriter) (b : list byte) : ResponseWriter :=
  let w' := WriteHeader w StatusOK in
  {| RespHeader := RespHeader w';
     wroteHeader := wroteHeader w';
     RespBody := (RespBody w' ++ b)%list |}.

(** The response as the transport receives it once the handler returns. *)
Definition Code (w : ResponseWriter) : Z :=
  match wroteHeader w with
  | Some (code, _) => code
  | None => StatusOK
  end.

Definition Sent (w : ResponseWriter) : Header :=
  match wroteHeader w with
  | Some (_, h) => h
  | None => RespHeader w
  end.

Definition newline : string := String "010"%char "".
Definition dquote : string := String (Ascii.ascii_of_nat 34) "".

Definition Fprintln (w : ResponseWriter) (s : string) : ResponseWriter :=
  Write w (list_byte_of_string (s +:+ newline)).

(** [http.Error] and [http.NotFound]: the body is written whatever the
    request method is. *)
Definition Error (w : ResponseWriter) (msg : string) (code : Z) : ResponseWriter :=
  let w := setHeader w "Content-Type" "text/plain; charset=utf-8" in
  let w := setHeader w "X-Content-Type-Options" "nosniff" in
  let w := WriteHeader w code in
  Fprintln w msg.

Definition NotFound (w : ResponseWriter) (r : Request) : ResponseWriter :=
  Error w "404 page not found" StatusNotFound.

Definition hexDigit (n : N) : ascii :=
  if (n <? 10)%N then ascii_of_N (48 + n) else ascii_of_N (87 + n).

Fixpoint hexEscapeNonASCII (s : string) : string :=
  match s with
  | EmptyString => ""
  | String c s' =>
      let n := N_of_ascii c in
      if (128 <=? n)%N
      then String "%"%char (String (hexDigit (n / 16)) (String (hexDigit (n mod 16))
             (hexEscapeNonASCII s')))
      else String c (hexEscapeNonASCII s')
  end.

Fixpoint htmlEscape (s : string) : string :=
  match s with
  | EmptyString => ""
  | String c s' =>
      (if Ascii.eqb c "&"%char then "&amp;"
       else if Ascii.eqb c "<"%char then "&lt;"
       else if Ascii.eqb c ">"%char then "&gt;"
       else if Ascii.eqb c (Ascii.ascii_of_nat 34) then "&#34;"
       else if Ascii.eqb c "'"%char then "&#39;"
       else String c "") +:+ htmlEscape s'
  end.

(** The part of [s] before the first "?" and the part from it on. *)
Fixpoint cutQuery (s : string) : string * string :=
  match s with
  | EmptyString => ("", "")
  | String c s' =>
      if Ascii.eqb c "?"%char then ("", s)
      else let '(u, q) := cutQuery s' in (String c u, q)
  end.

Fixpoint endsWithSlash (s : string) : bool :=
  match s with
  | EmptyString => false
  | String c EmptyString => path.isSlash c
  | String _ s' => endsWithSlash s'
  end.

(** [http.Redirect]'s treatment of the target: a relative target is made
    absolute against the request path and cleaned, a trailing slash and
    the query kept; any other target is left as it is. *)
Definition redirectLocation `{RT : Runtime} (oldpath url : string) : string :=
  if urlIsRelative url then
    let oldpath := if String.eqb oldpath "" then "/" else oldpath in
    let url := if path.rooted url then url else fst (path.Split oldpath) +:+ url in
    let '(u, query) := cutQuery url in
    let trailing := endsWithSlash u in
    let u := path.Clean u in
    let u := if trailing && negb (endsWithSlash u) then u +:+ "/" else u in
    u +:+ query
  else url.

Definition Redirect `{RT : Runtime} (w : ResponseWriter) (r : Request)
    (url : string) (code : Z) : ResponseWriter :=
  let url := redirectLocation (URL_Path r) url in
  let hadCT := bool_decide (is_Some (RespHeader w !! "Content-Type")) in
  let w := setHeader w "Location" (hexEscapeNonASCII url) in
  let w :=
    if negb hadCT && (String.eqb (Method r) "GET" || String.eqb (Method r) "HEAD")
    then setHeader w "Content-Type" "text/html; charset=utf-8" else w in
  let w := WriteHeader w code in
  if negb hadCT && String.eqb (Method r) "GET"
  then Fprintln w ("<a href=" +:+ dquote +:+ htmlEscape url +:+ dquote +:+ ">"
                   +:+ StatusText code +:+ "</a>." +:+ newline)
  else w.

End http.

(** ** The program: asset records and the store *)

Module siteFile.
Record t : Type := {
  contents : list byte;
  mimeType : string;
  isGzipped : bool;
  name : string;
  dir : string;
  lastModified : time.Time
}.
End siteFile.

Module memoryFileServer.
Record t : Type := {
  name : string;
  root : string;
  files : gmap string siteFile.t;
  index : string;
  error404 : option siteFile.t;
  error404Name : string;
  forceHTTPS : bool;
  addrHeader : string
}.
End memoryFileServer.

(** [fmt.Sprint] of a length. *)
Definition Sprint (n : nat) : string := NilZero.string_of_uint (Nat.to_uint n).

(** The zero [time.Time] (January 1, year 1). *)
Definition zeroTime : time.Time := (-62135596800 * 1000000000)%Z.

Section Program.

Context `{RT : Runtime}.

Definition SetHeaders (f : siteFile.t) (w : http.ResponseWriter) : http.ResponseWriter :=
  let w := http.setHeader w "Content-Length" (Sprint (length (siteFile.contents f))) in
  let w := http.setHeader w "Content-Type" (siteFile.mimeType f) in
  let w := http.setHeader w "Last-Modified" (FormatHTTPTime (siteFile.lastModified f)) in
  if siteFile.isGzipped f then http.setHeader w "Content-Encoding" "gzip" else w.

Definition compressContents (contents : list byte) : list byte * bool :=
  let '(buf, err) := gzipWrite contents in
  match err with
  | Some _ => ([], false)
  | None =>
      if (length contents <=? length buf)%nat then ([], false)
      else (buf, true)
  end.

Variable fs : os.filesystem.

Definition readFile (name : string) (size : nat) : result siteFile.t :=
  match os.Open fs name with
  | Err e => Err e
  | Ok f =>
      let '(buf, _, err) := os.Read f size in
      match err with
      | Some e => Err e
      | None =>
          let mimeType := TypeByExtension (path.Ext name) in
          let mimeType :=
            if String.eqb mimeType "" then DetectContentType buf else mimeType in
          let '(gzipped, ok) := compressContents buf in
          Ok {| siteFile.name := path.Base name;
                siteFile.dir := path.Dir name;
                siteFile.contents := if ok then gzipped else buf;
                siteFile.isGzipped := ok;
                siteFile.mimeType := mimeType;
                siteFile.lastModified := zeroTime |}
      end
  end.

Definition setLastModified (f : siteFile.t) (t : time.Time) : siteFile.t :=
  {| siteFile.name := siteFile.name f;
     siteFile.dir := siteFile.dir f;
     siteFile.contents := siteFile.contents f;
     siteFile.isGzipped := siteFile.isGzipped f;
     siteFile.mimeType := siteFile.mimeType f;
     siteFile.lastModified := t |}.

Definition setFiles (s : memoryFileServer.t) (m : gmap string siteFile.t) : memoryFileServer.t :=
  {| memoryFileServer.name := memoryFileServer.name s;
     memoryFileServer.root := memoryFileServer.root s;
     memoryFileServer.files := m;
     memoryFileServer.index := memoryFileServer.index s;
     memoryFileServer.error404 := memoryFileServer.error404 s;
     memoryFileServer.error404Name := memoryFileServer.error404Name s;
     memoryFileServer.forceHTTPS := memoryFileServer.forceHTTPS s;
     memoryFileServer.addrHeader := memoryFileServer.addrHeader s |}.

Definition addFile (s : memoryFileServer.t) (f : siteFile.t) : memoryFileServer.t :=
  let m := memoryFileServer.files s in
  let m :=
    if String.eqb (siteFile.name f) (memoryFileServer.index s)
    then <[siteFile.dir f := f]> m else m in
  setFiles s (<[path.Join [siteFile.dir f; siteFile.name f] := f]> m).

(** The first lines of [loadFiles]: what the loader takes [curPath] to
    be. *)
Definition inspect (curPath : string) : result os.FileInfo :=
  match os.Lstat fs curPath with
  | Err e => Err e
  | Ok fi =>
      if (Z.land (os.Mode fi) os.ModeSymlink =? os.ModeSymlink)%Z then
        if os.IsDir fi
        then Err (Errorf (curPath +:+ ": directory symbolic links are not allowed"))
        else os.Stat fs curPath
      else Ok fi
  end.

(** [for _, p := range f { if err = ...; err != nil { return err } }]:
    the body is run on each name in turn until one fails. *)
Fixpoint range (body : memoryFileServer.t -> string -> option (result memoryFileServer.t))
    (ps : list string) (s : memoryFileServer.t) : option (result memoryFileServer.t) :=
  match ps with
  | [] => Some (Ok s)
  | p :: ps' =>
      match body s p with
      | Some (Ok s') => range body ps' s'
      | other => other
      end
  end.

(** [loadFiles]; the recursion is bounded by [fuel], [None] meaning that
    the bound was reached. *)
Fixpoint loadFiles (fuel : nat) (s : memoryFileServer.t) (curPath : string)
    : option (result memoryFileServer.t) :=
  match fuel with
  | O => None
  | S fuel' =>
      match os.Lstat fs curPath with
      | Err e => Some (Err e)
      | Ok fi =>
          let checked :=
            if (Z.land (os.Mode fi) os.ModeSymlink =? os.ModeSymlink)%Z then
              if os.IsDir fi
              then Err (Errorf (curPath +:+ ": directory symbolic links are not allowed"))
              else os.Stat fs curPath
            else Ok fi in
          match checked with
          | Err e => Some (Err e)
          | Ok fi =>
              if negb (os.IsDir fi) then
                match readFile curPath (Z.to_nat (os.Size fi)) with
                | Err e => Some (Err e)
                | Ok f => Some (Ok (addFile s (setLastModified f (os.ModTime fi))))
                end
              else
                match os.ReadDir fs curPath with
                | Err e => Some (Err e)
                | Ok names =>
                    range (fun s p => loadFiles fuel' s (path.Join [curPath; p])) names s
                end
          end
      end
  end.

Definition resolveFile (s : memoryFileServer.t) (p : string) : option siteFile.t :=
  memoryFileServer.files s !! path.Join [memoryFileServer.root s; p].

Definition newFileServer (fuel : nat) (name root index fourOhFour : string)
    (forceHTTPS : bool) (addrHeader : string) : option (result memoryFileServer.t) :=
  let s := {| memoryFileServer.name := name;
              memoryFileServer.root := root;
              memoryFileServer.files := ∅;
              memoryFileServer.index := index;
              memoryFileServer.error404 := None;
              memoryFileServer.error404Name := fourOhFour;
              memoryFileServer.forceHTTPS := forceHTTPS;
              memoryFileServer.addrHeader := addrHeader |} in
  match loadFiles fuel s root with
  | None => None
  | Some (Err e) => Some (Err e)
  | Some (Ok s) =>
      Some (Ok
        {| memoryFileServer.name := memoryFileServer.name s;
           memoryFileServer.root := memoryFileServer.root s;
           memoryFileServer.files := memoryFileServer.files s;
           memoryFileServer.index := memoryFileServer.index s;
           memoryFileServer.error404 :=
             memoryFileServer.files s !! path.Join [memoryFileServer.root s; fourOhFour];
           memoryFileServer.error404Name := memoryFileServer.error404Name s;
           memoryFileServer.forceHTTPS := memoryFileServer.forceHTTPS s;
           memoryFileServer.addrHeader := memoryFileServer.addrHeader s |})
  end.

(** The record that the loader builds for the entry [index] of the
    directory [d], when [d] lists that name and the entry is read as a
    file. *)
Definition indexRecord (d index : string) : option siteFile.t :=
  match inspect d, os.ReadDir fs d with
  | Ok fi, Ok names =>
      if os.IsDir fi && existsb (String.eqb index) names then
        match inspect (path.Join [d; index]) with
        | Ok fi' =>
            if os.IsDir fi' then None
            else
              match readFile (path.Join [d; index]) (Z.to_nat (os.Size fi')) with
              | Ok f => Some (setLastModified f (os.ModTime fi'))
              | Err _ => None
              end
        | Err _ => None
        end
      else None
  | _, _ => None
  end.

(** [q] is [p] or lies below it through directories that [loadFiles]
    descends into. *)
Inductive descends : string -> string -> Prop :=
| descends_here p : descends p p
| descends_into p fi names n q :
    inspect p = Ok fi -> os.IsDir fi = true ->
    os.ReadDir fs p = Ok names -> In n names ->
    descends (path.Join [p; n]) q ->
    descends p q.

End Program.

(** ** The program: the request handler *)

Section Handler.

Context `{RT : Runtime}.

Variable s : memoryFileServer.t.

Definition serveOptions (w : http.ResponseWriter) : http.ResponseWriter :=
  let w := http.setHeader w "Allow" "OPTIONS, GET, HEAD" in
  http.WriteHeader w http.StatusNoContent.

Definition serve404 (w : http.ResponseWriter) (r : http.Request) : http.ResponseWriter :=
  match memoryFileServer.error404 s with
  | None => http.NotFound w r
  | Some e =>
      let w := SetHeaders e w in
      let w := http.WriteHeader w http.StatusNotFound in
      if negb (String.eqb (http.Method r) http.MethodHead)
      then http.Write w (siteFile.contents e) else w
  end.

Definition redirectIndex (w : http.ResponseWriter) (r : http.Request) : http.ResponseWriter :=
  http.Redirect w r (path.Dir (http.URL_Path r)) http.StatusMovedPermanently.

Definition redirectToHTTPS (w : http.ResponseWriter) (r : http.Request) : http.ResponseWriter :=
  let host := memoryFileServer.name s in
  let host := if String.eqb host "" then http.Host r else host in
  http.Redirect w r ("https://" +:+ host +:+ http.RequestURI r) http.StatusMovedPermanently.

Definition shouldRedirectToHTTPS (r : http.Request) : bool :=
  if negb (memoryFileServer.forceHTTPS s) then false
  else String.eqb (http.Get (http.ReqHeader r) "X-Forwarded-Proto") "http".

Definition serveFile (w : http.ResponseWriter) (r : http.Request) : http.ResponseWriter :=
  match resolveFile s (http.URL_Path r) with
  | None => serve404 w r
  | Some f =>
      if String.eqb (path.Base (http.URL_Path r)) (memoryFileServer.index s)
      then redirectIndex w r
      else
        let serve :=
          let w := SetHeaders f w in
          if negb (String.eqb (http.Method r) http.MethodHead)
          then http.Write w (siteFile.contents f) else w in
        let modSince := http.Get (http.ReqHeader r) "If-Modified-Since" in
        if negb (String.eqb modSince "") then
          match ParseHTTPTime modSince with
          | None => http.WriteHeader w http.StatusBadRequest
          | Some modSinceTime =>
              if negb (time.Before modSinceTime (siteFile.lastModified f))
              then http.WriteHeader (SetHeaders f w) http.StatusNotModified
              else serve
          end
        else serve
  end.

(** The line that [logRequest] prints; it is printed before anything
    else and has no bearing on the response. *)
Definition logRequest (r : http.Request) : string :=
  let clientAddr :=
    if negb (String.eqb (memoryFileServer.addrHeader s) "")
    then http.Get (http.ReqHeader r) (memoryFileServer.addrHeader s)
    else http.RemoteAddr r in
  clientAddr +:+ " " +:+ http.Method r +:+ " " +:+ http.RequestURI r.

Definition ServeHTTP (w : http.ResponseWriter) (r : http.Request) : http.ResponseWriter :=
  if shouldRedirectToHTTPS r then redirectToHTTPS w r
  else if String.eqb (http.Method r) http.MethodOptions then serveOptions w
  else if String.eqb (http.Method r) http.MethodGet
          || String.eqb (http.Method r) http.MethodHead then serveFile w r
  else http.WriteHeader w http.StatusMethodNotAllowed.

(** The headers that [SetHeaders] puts on a fresh response. *)
Definition assetHeaders (f : siteFile.t) : http.Header :=
  http.RespHeader (SetHeaders f http.NewRecorder).

(** What [http.NotFound] leaves on a fresh response. *)
Definition genericNotFound : http.ResponseWriter :=
  http.Error http.NewRecorder "404 page not found" http.StatusNotFound.

(** What the handler leaves on a fresh response when it serves [f] in
    full: status 200, the asset's headers, and the body unless the
    method is HEAD. *)
Definition served (f : siteFile.t) (r : http.Request) (w : http.ResponseWriter) : Prop :=
  http.Code w = 200%Z ∧ http.Sent w = assetHeaders f
  ∧ http.RespBody w = (if String.eqb (http.Method r) "HEAD" then [] else siteFile.contents f).

(** The headers of the response [w] are the four that the asset [f]
    calls for, one by one, and no other: the length of the stored
    content in decimal, the content type, the modification time as an
    HTTP date and, for a compressed record only, the gzip encoding. *)
Definition carries (w : http.ResponseWriter) (f : siteFile.t) : Prop :=
  http.Sent w !! "Content-Length" = Some [Sprint (length (siteFile.contents f))]
  ∧ http.Sent w !! "Content-Type" = Some [siteFile.mimeType f]
  ∧ http.Sent w !! "Last-Modified" = Some [FormatHTTPTime (siteFile.lastModified f)]
  ∧ http.Sent w !! "Content-Encoding"
    = (if siteFile.isGzipped f then Some ["gzip"] else None)
  ∧ ∀ k, k ≠ "Content-Length" -> k ≠ "Content-Type" -> k ≠ "Last-Modified" ->
         k ≠ "Content-Encoding" -> http.Sent w !! k = None.

End Handler.

Definition withMethod (r : http.Request) (m : string) : http.Request :=
  {| http.Method := m;
     http.URL_Path := http.URL_Path r;
     http.RequestURI := http.RequestURI r;
     http.Host := http.Host r;
     http.ReqHeader := http.ReqHeader r;
     http.RemoteAddr := http.RemoteAddr r |}.

Definition getOrHead (r : http.Request) : Prop :=
  http.Method r = http.MethodGet \/ http.Method r = http.MethodHead.

(** ** Sample inputs

    A concrete runtime and a few file trees and requests on which the
    definitions above can be evaluated. *)

Module sample.

(** A run-length coder standing in for gzip: two magic bytes, then a
    count and a byte per run. *)
Fixpoint runs (l : list byte) : list (nat * byte) :=
  match l with
  | [] => []
  | b :: l' =>
      match runs l' with
      | (n, b') :: rs =>
          if Byte.eqb b b' && (n <? 255)%nat then (S n, b) :: rs
          else (1%nat, b) :: (n, b') :: rs
      | [] => [(1%nat, b)]
      end
  end.

Definition byteOfNat (n : nat) : byte :=
  match Byte.of_nat n with Some b => b | None => xff end.

Definition rle (l : list byte) : list byte :=
  x1f :: x8b :: flat_map (fun '(n, b) => [byteOfNat n; b]) (runs l).

Definition typeByExtension (ext : string) : string :=
  if String.eqb ext ".html" then "text/html; charset=utf-8"
  else if String.eqb ext ".txt" then "text/plain; charset=utf-8"
  else if String.eqb ext ".css" then "text/css; charset=utf-8"
  else "".

(** Dates in the layout [Mon, 02 Jan 2006 15:04:05 GMT]. *)
Definition digitOf (c : ascii) : option Z :=
  let n := Z.of_N (N_of_ascii c) in
  if (48 <=? n)%Z && (n <=? 57)%Z then Some (n - 48)%Z else None.

Fixpoint number (s : string) (acc : Z) : option Z :=
  match s with
  | EmptyString => Some acc
  | String c s' =>
      match digitOf c with
      | Some d => number s' (10 * acc + d)%Z
      | None => None
      end
  end.

Definition dayNames : list string :=
  ["Sun"; "Mon"; "Tue"; "Wed"; "Thu"; "Fri"; "Sat"].
Definition monthNames : list string :=
  ["Jan"; "Feb"; "Mar"; "Apr"; "May"; "Jun";
   "Jul"; "Aug"; "Sep"; "Oct"; "Nov"; "Dec"].

Fixpoint indexOf (x : string) (l : list string) (i : Z) : option Z :=
  match l with
  | [] => None
  | y :: l' => if String.eqb x y then Some i else indexOf x l' (i + 1)%Z
  end.

Definition isLeap (y : Z) : bool :=
  ((y mod 4 =? 0) && (negb (y mod 100 =? 0) || (y mod 400 =? 0)))%Z.

Definition daysIn (y m : Z) : Z :=
  if (m =? 2)%Z then (if isLeap y then 29 else 28)%Z
  else if ((m =? 4) || (m =? 6) || (m =? 9) || (m =? 11))%Z then 30%Z
  else 31%Z.

Definition daysFromCivil (y m d : Z) : Z :=
  let y := (if m <=? 2 then y - 1 else y)%Z in
  let era := (y / 400)%Z in
  let yoe := (y - era * 400)%Z in
  let doy := ((153 * (if 2 <? m then m - 3 else m + 9) + 2) / 5 + d - 1)%Z in
  let doe := (yoe * 365 + yoe / 4 - yoe / 100 + doy)%Z in
  (era * 146097 + doe - 719468)%Z.

Definition civilFromDays (z : Z) : Z * Z * Z :=
  let z := (z + 719468)%Z in
  let era := (z / 146097)%Z in
  let doe := (z - era * 146097)%Z in
  let yoe := ((doe - doe / 1460 + doe / 36524 - doe / 146096) / 365)%Z in
  let doy := (doe - (365 * yoe + yoe / 4 - yoe / 100))%Z in
  let mp := ((5 * doy + 2) / 153)%Z in
  let d := (doy - (153 * mp + 2) / 5 + 1)%Z in
  let m := (if mp <? 10 then mp + 3 else mp - 9)%Z in
  ((if m <=? 2 then yoe + era * 400 + 1 else yoe + era * 400)%Z, m, d).

Definition parseHTTPTime (v : string) : option time.Time :=
  if negb (String.length v =? 29)%nat then None
  else if negb (String.eqb (substring 3 2 v) ", " && String.eqb (substring 7 1 v) " "
                && String.eqb (substring 11 1 v) " " && String.eqb (substring 16 1 v) " "
                && String.eqb (substring 19 1 v) ":" && String.eqb (substring 22 1 v) ":"
                && String.eqb (substring 25 4 v) " GMT") then None
  else
    match indexOf (substring 0 3 v) dayNames 0, number (substring 5 2 v) 0,
          indexOf (substring 8 3 v) monthNames 1, number (substring 12 4 v) 0,
          number (substring 17 2 v) 0, number (substring 20 2 v) 0,
          number (substring 23 2 v) 0 with
    | Some _, Some d, Some m, Some y, Some hh, Some mm, Some ss =>
        if ((1 <=? d) && (d <=? daysIn y m) && (hh <? 24) && (mm <? 60) && (ss <? 60))%Z
        then Some ((((daysFromCivil y m d * 24 + hh) * 60 + mm) * 60 + ss) * 1000000000)%Z
        else None
    | _, _, _, _, _, _, _ => None
    end.

Definition decimal (n : Z) : string := NilZero.string_of_uint (N.to_uint (Z.to_N n)).

Definition pad (width : nat) (n : Z) : string :=
  let d := decimal n in
  String.concat "" (repeat "0" (width - String.length d)) +:+ d.

Definition formatHTTPTime (t : time.Time) : string :=
  let secs := (t / 1000000000)%Z in
  let days := (secs / 86400)%Z in
  let rem := (secs mod 86400)%Z in
  let '(y, m, d) := civilFromDays days in
  nth (Z.to_nat ((days + 4) mod 7)) dayNames "" +:+ ", " +:+ pad 2 d +:+ " "
  +:+ nth (Z.to_nat (m - 1)) monthNames "" +:+ " " +:+ pad 4 y +:+ " "
  +:+ pad 2 (rem / 3600) +:+ ":" +:+ pad 2 (rem mod 3600 / 60) +:+ ":"
  +:+ pad 2 (rem mod 60) +:+ " GMT".

(** A target is relative when it has neither a scheme nor an authority. *)
Fixpoint hasScheme (s : string) (i : nat) : bool :=
  match s with
  | EmptyString => false
  | String c s' =>
      let n := N_of_ascii c in
      if ((65 <=? n) && (n <=? 90) || (97 <=? n) && (n <=? 122))%N
      then hasScheme s' (S i)
      else if ((48 <=? n) && (n <=? 57))%N || Ascii.eqb c "+"%char
              || Ascii.eqb c "-"%char || Ascii.eqb c "."%char
      then match i with O => false | _ => hasScheme s' (S i) end
      else Ascii.eqb c ":"%char
  end.

Definition isRelative (url : string) : bool :=
  negb (hasScheme url 0) && negb (String.prefix "//" url).

#[local] Instance runtime : Runtime := {|
  gzipWrite := fun b => (rle b, None);
  TypeByExtension := typeByExtension;
  DetectContentType := fun _ => "application/octet-stream";
  ParseHTTPTime := parseHTTPTime;
  FormatHTTPTime := formatHTTPTime;
  urlIsRelative := isRelative;
  urlIsRelative_https := fun _ => eq_refl
|}.

(** The same runtime with a gzip writer that always fails. *)
Definition failingGzip : Runtime := {|
  gzipWrite := fun _ => ([], Some (Errorf "flate: internal error"));
  TypeByExtension := typeByExtension;
  DetectContentType := fun _ => "application/octet-stream";
  ParseHTTPTime := parseHTTPTime;
  FormatHTTPTime := formatHTTPTime;
  urlIsRelative := isRelative;
  urlIsRelative_https := fun _ => eq_refl
|}.

Definition bytes (s : string) : list byte := list_byte_of_string s.

Definition file (s : string) (mtime : time.Time) : os.node :=
  os.RegFile (String.length s) (bytes s) mtime.

(** Wed, 21 Oct 2015 07:28:00 GMT, and half a second later. *)
Definition T0 : time.Time := 1445412480000000000%Z.
Definition T1 : time.Time := 1445412480500000000%Z.

Definition mkfs (site : list (string * os.node)) : os.filesystem :=
  {| os.fsroot := os.Directory [("site", os.Directory site T0)] T0; os.cwd := [] |}.

(** [/site] with a text file, an index, an error page and a directory
    that has an index of its own. *)
Definition site : os.filesystem :=
  mkfs [("docs", os.Directory [("index.html", file "<p>docs</p>" T0)] T0);
        ("hello.txt", file "hi" T0);
        ("index.html", file "<h1>home</h1>" T0);
        ("missing.html", file "not found" T0);
        ("zeros.txt", file "0000000000000000000000000000000000000000" T0)].

(** [/site/shortcut] is a symbolic link to the directory [/site/real]. *)
Definition linked : os.filesystem :=
  mkfs [("real", os.Directory [("a.txt", file "inside" T0)] T0);
        ("shortcut", os.SymLink "real" T0)].



(** [/site/hello.txt] was last modified half a second after [T0]. *)
Definition subsecond : os.filesystem :=
  mkfs [("hello.txt", file "hi" T1)].

(** [/site/index.html] is a directory, with an index file in it. *)
Definition nested : os.filesystem :=
  mkfs [("index.html", os.Directory [("index.html", file "<p>inner</p>" T0)] T0)].

Definition request (method p : string) (h : list (string * string)) : http.Request :=
  {| http.Method := method;
     http.URL_Path := p;
     http.RequestURI := p;
     http.Host := "example.com";
     http.ReqHeader := list_to_map (map (fun '(k, v) => (k, [v])) h);
     http.RemoteAddr := "192.0.2.1:4711" |}.

Definition start (fs : os.filesystem) (fourOhFour : string) (forceHTTPS : bool)
    : option (result memoryFileServer.t) :=
  newFileServer fs 8 "" "/site" "index.html" fourOhFour forceHTTPS "".

(** The answer of the server started on [fs], if it starts. *)
Definition answer (fs : os.filesystem) (fourOhFour : string) (forceHTTPS : bool)
    (r : http.Request) : option (Z * list (string * list string) * string) :=
  match start fs fourOhFour forceHTTPS with
  | Some (Ok s) =>
      let w := ServeHTTP s http.NewRecorder r in
      Some (http.Code w, map_to_list (http.Sent w), string_of_list_byte (http.RespBody w))
  | _ => None
  end.

Definition noServer : memoryFileServer.t :=
  {| memoryFileServer.name := ""; memoryFileServer.root := "";
     memoryFileServer.files := ∅; memoryFileServer.index := "";
     memoryFileServer.error404 := None; memoryFileServer.error404Name := "";
     memoryFileServer.forceHTTPS := false; memoryFileServer.addrHeader := "" |}.

(** The server started on [fs]. *)
Definition server (fs : os.filesystem) (fourOhFour : string) (forceHTTPS : bool)
    : memoryFileServer.t :=
  match start fs fourOhFour forceHTTPS with
  | Some (Ok s) => s
  | _ => noServer
  end.

(** A record to fall back on where an optional one is unwrapped. *)
Definition noFile : siteFile.t :=
  {| siteFile.contents := []; siteFile.mimeType := "";
     siteFile.isGzipped := false; siteFile.name := "";
     siteFile.dir := ""; siteFile.lastModified := 0%Z |}.

End sample.

(** Two servers that differ at most in the store. *)
Definition sameConfig (s s' : memoryFileServer.t) : Prop :=
  s' = setFiles s (memoryFileServer.files s').

Definition slashfree (c : string) : Prop := path.hasSlash c = false.

(** A tree without symbolic links, and the number of directory levels
    in a tree. *)
Fixpoint linkFree (n : os.node) : bool :=
  match n with
  | os.Directory es _ => forallb (fun e => linkFree (snd e)) es
  | os.SymLink _ _ => false
  | os.RegFile _ _ _ => true
  end.

Fixpoint treeHeight (n : os.node) : nat :=
  match n with
  | os.Directory es _ =>
      S (fold_right (fun e h => Nat.max (treeHeight (snd e)) h) O es)
  | _ => O
  end.

(** Where path resolution stands after the element [c], starting from
    the directory [cur], when no symbolic link is met. *)
Definition chdir (cur : list string) (c : string) : list string :=
  if String.eqb c "" || String.eqb c "." then cur
  else if String.eqb c ".." then removelast cur
  else (cur ++ [c])%list.

(** [k] is the cleaned [root] or a cleaned path below it: [k] is not
    empty and is its own cleaned form, it is rooted exactly when [root]
    is, its elements start with those of the cleaned [root], and each
    element after these is a file name (so none is ".."; the scan lists
    the elements last first). *)
Definition within (root k : string) : bool :=
  negb (String.eqb k "") && String.eqb (path.Clean k) k
  && Bool.eqb (path.rooted k) (path.rooted root)
  && bool_decide (path.scan root `suffix_of` path.scan k)
  && forallb path.validName
       (take (length (path.scan k) - length (path.scan root)) (path.scan k)).

(** * Properties *)

(** Settles a closed statement by evaluation, one part after the other. *)
Ltac evaluated :=
  lazymatch goal with
  | |- _ ∧ _ => split; [evaluated | evaluated]
  | |- ex _ => eexists; evaluated
  | |- is_Some _ => vm_compute; eexists; reflexivity
  | |- _ ≠ _ => vm_compute; discriminate
  | |- _ => vm_compute; reflexivity
  end.

(** ** Paths: [Clean], [Join], [Base] and [Dir] on cleaned paths *)

Section PathFacts.

Implicit Types (p q n c : string) (out : list string).

Lemma split_nonnil p : path.split p ≠ [].
Proof.
  destruct p as [|a p]; simpl; [done|].
  destruct (path.isSlash a); [done|]. by destruct (path.split p).
Qed.

Lemma split_app a b :
  path.split (a +:+ String "/" b) = (path.split a ++ path.split b)%list.
Proof.
  induction a as [|x a IH]; simpl; [done|].
  destruct (path.isSlash x); [by rewrite IH|].
  rewrite IH. pose proof (split_nonnil a). by destruct (path.split a).
Qed.

Lemma split_name n : path.hasSlash n = false -> path.split n = [n].
Proof.
  induction n as [|x n IH]; simpl; [done|].
  intros [Hx Hn]%orb_false_elim. rewrite Hx, (IH Hn). done.
Qed.

Lemma split_elements p : Forall (fun c => path.hasSlash c = false) (path.split p).
Proof.
  induction p as [|x p IH]; simpl; [by repeat constructor|].
  destruct (path.isSlash x) eqn:Hx; [by constructor|].
  destruct (path.split p) as [|y ys]; [by repeat constructor; simpl; rewrite Hx|].
  inversion IH; subst. constructor; [|done]. simpl. by rewrite Hx.
Qed.

Lemma concat_cons_cons x y l :
  String.concat "/" (x :: y :: l) = x +:+ String "/" (String.concat "/" (y :: l)).
Proof. done. Qed.

Lemma split_concat l :
  l ≠ [] -> Forall (fun c => path.hasSlash c = false) l ->
  path.split (String.concat "/" l) = l.
Proof.
  induction l as [|x l IH]; [done|]. intros _ Hall.
  inversion Hall as [|? ? Hx Hl]; subst.
  destruct l as [|y l]; [by apply split_name|].
  rewrite concat_cons_cons, split_app, (split_name x Hx), IH; done.
Qed.

Lemma concat_cons x l :
  l ≠ [] -> String.concat "/" (x :: l) = x +:+ String "/" (String.concat "/" l).
Proof. by destruct l. Qed.

Lemma app_cons a x t : String a x +:+ t = String a (x +:+ t).
Proof. done. Qed.

Lemma append_assoc_slash x t n :
  (x +:+ String "/" t) +:+ String "/" n = x +:+ String "/" (t +:+ String "/" n).
Proof. induction x as [|a x IHx]; [done|]. rewrite !app_cons. by rewrite IHx. Qed.

Lemma concat_snoc l n :
  l ≠ [] -> String.concat "/" (l ++ [n]) = String.concat "/" l +:+ String "/" n.
Proof.
  induction l as [|x l IH]; [done|]. intros _.
  destruct l as [|y l]; [done|].
  change ((x :: y :: l) ++ [n])%list with (x :: ((y :: l) ++ [n]))%list.
  rewrite concat_cons by (by destruct l).
  rewrite IH by done. rewrite (concat_cons x (y :: l)) by done.
  by rewrite append_assoc_slash.
Qed.


Lemma validName_inv n :
  path.validName n = true ->
  n ≠ "" ∧ n ≠ "." ∧ n ≠ ".." ∧ path.hasSlash n = false.
Proof.
  unfold path.validName. rewrite !andb_true_iff, !negb_true_iff.
  intros [[[H1 H2] H3] H4]. by rewrite !String.eqb_neq in *.
Qed.

Lemma step_name r out n : path.validName n = true -> path.step r out n = n :: out.
Proof.
  intros (H1 & H2 & H3 & _)%validName_inv. unfold path.step.
  apply String.eqb_neq in H1, H2, H3. by rewrite H1, H2, H3.
Qed.

Lemma normal_cons r c out :
  path.normal r (c :: out) = true ->
  c ≠ "" ∧ c ≠ "." ∧ path.hasSlash c = false
  ∧ (c = ".." -> r = false ∧ match out with [] => True | t :: _ => t = ".." end)
  ∧ path.normal r out = true.
Proof.
  simpl. rewrite !andb_true_iff, !negb_true_iff.
  intros [[[[H1 H2] H3] H4] H5]. rewrite !String.eqb_neq in *.
  split; [done|]. split; [done|]. split; [done|]. split; [|done].
  intros ->. simpl in H4. apply andb_true_iff in H4 as [H4 H6].
  split; [by apply negb_true_iff in H4|].
  destruct out; [done|]. by apply String.eqb_eq in H6.
Qed.

Lemma step_normal_elem r c out :
  path.normal r (c :: out) = true -> path.step r out c = c :: out.
Proof.
  intros (H1 & H2 & _ & H4 & _)%normal_cons. unfold path.step.
  apply String.eqb_neq in H1, H2. rewrite H1, H2.
  destruct (String.eqb c "..") eqn:Hc; [|done].
  apply String.eqb_eq in Hc. destruct (H4 Hc) as [-> Ht]. subst c.
  destruct out as [|t out]; [done|]. subst t. done.
Qed.

Lemma step_normal r out c :
  path.normal r out = true -> path.hasSlash c = false ->
  path.normal r (path.step r out c) = true.
Proof.
  intros Hn Hc. unfold path.step.
  destruct (String.eqb c "") eqn:H1; [done|].
  destruct (String.eqb c ".") eqn:H2; [done|].
  destruct (String.eqb c "..") eqn:H3.
  - apply String.eqb_eq in H3. subst c.
    destruct out as [|t out].
    + by destruct r.
    + destruct (String.eqb t "..") eqn:Ht.
      * apply String.eqb_eq in Ht. subst t.
        apply normal_cons in Hn as Hn'. destruct Hn' as (_ & _ & _ & Hr & _).
        destruct (Hr eq_refl) as [-> _]. simpl. simpl in Hn. by rewrite Hn.
      * by apply normal_cons in Hn as (_ & _ & _ & _ & Hn).
  - simpl. by rewrite H1, H2, Hc, H3, Hn.
Qed.

Lemma fold_step_normal r l out :
  path.normal r out = true -> Forall slashfree l ->
  path.normal r (fold_left (path.step r) l out) = true.
Proof.
  intros Hn Hl. revert out Hn. induction Hl as [|c l Hc Hl IH]; intros out Hn; [done|].
  simpl. apply IH. by apply step_normal.
Qed.

Lemma scan_normal p : path.normal (path.rooted p) (path.scan p) = true.
Proof. apply fold_step_normal; [done | apply split_elements]. Qed.

Lemma fold_rev_normal r out :
  path.normal r out = true -> fold_left (path.step r) (rev out) [] = out.
Proof.
  induction out as [|c out IH]; [done|]. intros Hn.
  simpl rev. rewrite fold_left_app. simpl.
  rewrite IH by (by apply normal_cons in Hn as (_ & _ & _ & _ & Hn)).
  by apply step_normal_elem.
Qed.

Lemma normal_slashfree r out : path.normal r out = true -> Forall slashfree out.
Proof.
  induction out as [|c out IH]; [constructor|].
  intros (_ & _ & Hc & _ & Hn)%normal_cons. constructor; [done | by apply IH].
Qed.

Lemma normal_last r out x l :
  path.normal r out = true -> rev out = x :: l -> x ≠ "" ∧ path.hasSlash x = false.
Proof.
  intros Hn Hrev.
  assert (Hin : In x out) by (apply in_rev; rewrite Hrev; by left).
  clear Hrev. induction out as [|c out IH]; [done|].
  apply normal_cons in Hn as (H1 & _ & H3 & _ & Hn).
  destruct Hin as [-> | Hin]; [done | by apply IH].
Qed.

Lemma concat_head x l :
  x ≠ "" -> path.hasSlash x = false ->
  String.concat "/" (x :: l) ≠ "" ∧ path.rooted (String.concat "/" (x :: l)) = false.
Proof.
  intros Hx Hs. destruct x as [|a x]; [done|]. simpl in Hs.
  apply orb_false_elim in Hs as [Ha _].
  destruct l; simpl; [done|]. rewrite app_cons. done.
Qed.

Lemma scan_rooted t :
  path.scan (String "/" t) = fold_left (path.step true) (path.split t) [].
Proof. done. Qed.

(** A rendered scan is a fixed point of [Clean]. *)
Lemma render_facts r out :
  path.normal r out = true ->
  path.render r out ≠ "" ∧ path.rooted (path.render r out) = r
  ∧ path.scan (path.render r out) = out.
Proof.
  intros Hn. unfold path.render. destruct r.
  - rewrite app_cons. change ("" +:+ ?x) with x.
    split; [done|]. split; [done|].
    rewrite scan_rooted.
    destruct out as [|c out]; [done|].
    rewrite split_concat.
    + by apply fold_rev_normal.
    + simpl. by destruct (rev out).
    + apply Forall_rev. by apply (normal_slashfree true).
  - destruct out as [|c out]; [done|].
    destruct (rev (c :: out)) as [|x l] eqn:Hrev.
    { apply (f_equal (@length _)) in Hrev. rewrite length_rev in Hrev. done. }
    destruct (normal_last _ _ _ _ Hn Hrev) as [Hx Hs].
    destruct (concat_head x l Hx Hs) as [Hne Hroot].
    split; [done|]. split; [done|].
    unfold path.scan. rewrite Hroot, split_concat.
    + rewrite <- Hrev. by apply fold_rev_normal.
    + done.
    + rewrite <- Hrev. apply Forall_rev. by apply (normal_slashfree false).
Qed.

Lemma Clean_nonempty p :
  p ≠ "" -> path.Clean p = path.render (path.rooted p) (path.scan p).
Proof. by destruct p. Qed.

Lemma Clean_render r out :
  path.normal r out = true -> path.Clean (path.render r out) = path.render r out.
Proof.
  intros Hn. destruct (render_facts r out Hn) as (Hne & Hr & Hs).
  by rewrite Clean_nonempty, Hr, Hs.
Qed.

Lemma rooted_app p t : p ≠ "" -> path.rooted (p +:+ t) = path.rooted p.
Proof. by destruct p. Qed.

Lemma app_nonempty p t : p ≠ "" -> p +:+ t ≠ "".
Proof. by destruct p. Qed.

(** Joining a name below a path. *)
Lemma Join_child p n :
  p ≠ "" -> path.validName n = true ->
  path.Join [p; n] = path.render (path.rooted p) (n :: path.scan p).
Proof.
  intros Hp Hn. unfold path.Join.
  rewrite (proj2 (String.eqb_neq p "") Hp).
  change (String.concat "/" [p; n]) with (p +:+ String "/" n).
  rewrite Clean_nonempty by (by apply app_nonempty).
  rewrite rooted_app by done. f_equal.
  unfold path.scan. rewrite rooted_app by done.
  rewrite split_app, fold_left_app.
  rewrite split_name by (by apply validName_inv in Hn as (_ & _ & _ & Hn)).
  simpl. by apply step_name.
Qed.

Lemma Join_empty p : p ≠ "" -> path.Join [p; ""] = path.Clean p.
Proof.
  intros Hp. unfold path.Join.
  rewrite (proj2 (String.eqb_neq p "") Hp).
  change (String.concat "/" [p; ""]) with (p +:+ String "/" "").
  rewrite !Clean_nonempty by (done || by apply app_nonempty).
  rewrite rooted_app by done. f_equal.
  unfold path.scan. rewrite rooted_app by done.
  by rewrite split_app, fold_left_app.
Qed.

Lemma Join_render r out n :
  path.normal r out = true -> path.validName n = true ->
  path.Join [path.render r out; n] = path.render r (n :: out).
Proof.
  intros Hn Hv. destruct (render_facts r out Hn) as (Hne & Hr & Hs).
  by rewrite Join_child, Hr, Hs.
Qed.

Lemma normal_push r out n :
  path.normal r out = true -> path.validName n = true ->
  path.normal r (n :: out) = true.
Proof.
  intros Hn (H1 & H2 & H3 & H4)%validName_inv. simpl.
  apply String.eqb_neq in H1, H2, H3. by rewrite H1, H2, H3, H4, Hn.
Qed.


Lemma render_inj r o1 o2 :
  path.normal r o1 = true -> path.normal r o2 = true ->
  path.render r o1 = path.render r o2 -> o1 = o2.
Proof.
  intros H1 H2 Heq.
  destruct (render_facts r o1 H1) as (_ & _ & <-).
  destruct (render_facts r o2 H2) as (_ & _ & <-). by rewrite Heq.
Qed.

Lemma render_push r out n :
  path.render r (n :: out)
  = match out with
    | [] => if r then String "/" n else n
    | _ => path.render r out +:+ String "/" n
    end.
Proof.
  unfold path.render. destruct r, out as [|c out]; try done.
  - simpl rev. rewrite concat_snoc by (by destruct (rev out)). by rewrite app_cons.
  - simpl rev. by rewrite concat_snoc by (by destruct (rev out)).
Qed.

Lemma Split_name n : path.hasSlash n = false -> path.Split n = ("", n).
Proof.
  induction n as [|a n IH]; [done|]. simpl.
  intros [Ha Hn]%orb_false_elim. by rewrite (IH Hn), Ha.
Qed.

Lemma Split_app a n :
  path.hasSlash n = false -> path.Split (a +:+ String "/" n) = (a +:+ "/", n).
Proof.
  intros Hn. induction a as [|x a IH].
  - change ("" +:+ String "/" n) with (String "/" n). simpl.
    by rewrite (Split_name n Hn).
  - rewrite !app_cons. simpl. rewrite IH.
    destruct (path.isSlash x); [done|]. by destruct a.
Qed.

Lemma trimSlashes_name n : path.hasSlash n = false -> path.trimSlashes n = n.
Proof.
  induction n as [|a n IH]; [done|]. simpl.
  intros [Ha Hn]%orb_false_elim. by rewrite (IH Hn), Ha.
Qed.

Lemma trimSlashes_app a n :
  n ≠ "" -> path.hasSlash n = false -> path.trimSlashes (a +:+ n) = a +:+ n.
Proof.
  intros Hne Hn. induction a as [|x a IH].
  - by apply trimSlashes_name.
  - rewrite app_cons. simpl. rewrite IH.
    destruct (a +:+ n) eqn:Han; [|by rewrite andb_false_r].
    destruct a; [done | discriminate].
Qed.

Lemma Base_render r out n :
  path.validName n = true -> path.Base (path.render r (n :: out)) = n.
Proof.
  intros (Hne & _ & _ & Hs)%validName_inv.
  assert (Hform : ∃ a, path.render r (n :: out) = a +:+ n
                       ∧ path.Split (a +:+ n) = (a, n)).
  { rewrite render_push. destruct out as [|c out].
    - destruct r.
      + exists "/". split; [done|]. by apply (Split_app "" n).
      + exists "". split; [done|]. by apply Split_name.
    - exists (path.render r (c :: out) +:+ "/"). split.
      + generalize (path.render r (c :: out)). intros t.
        induction t as [|x t IHt]; [done|]. rewrite !app_cons. by rewrite IHt.
      + assert (He : ∀ t, (t +:+ "/") +:+ n = t +:+ String "/" n).
        { intros t. induction t as [|x t IHt]; [done|]. rewrite !app_cons. by rewrite IHt. }
        rewrite He. by apply Split_app. }
  destruct Hform as (a & -> & Hsplit). unfold path.Base.
  rewrite trimSlashes_app, Hsplit by done. simpl.
  destruct (a +:+ n) eqn:Han.
  { destruct a; [done | discriminate]. }
  by rewrite (proj2 (String.eqb_neq n "") Hne).
Qed.

Lemma Clean_trailing p : p ≠ "" -> path.Clean (p +:+ "/") = path.Clean p.
Proof.
  intros Hp. rewrite !Clean_nonempty by (done || by apply app_nonempty).
  rewrite rooted_app by done. f_equal. unfold path.scan.
  rewrite rooted_app by done.
  change (p +:+ "/") with (p +:+ String "/" "").
  by rewrite split_app, fold_left_app.
Qed.

Lemma Dir_render r out n :
  path.normal r out = true -> path.validName n = true ->
  path.Dir (path.render r (n :: out)) = path.render r out.
Proof.
  intros Hn (_ & _ & _ & Hs)%validName_inv. unfold path.Dir.
  rewrite render_push. destruct out as [|c out].
  - destruct r.
    + pose proof (Split_app "" n Hs) as Hsp.
      change ("" +:+ String "/" n) with (String "/" n) in Hsp. by rewrite Hsp.
    + by rewrite (Split_name n Hs).
  - rewrite Split_app by done. simpl fst.
    destruct (render_facts r (c :: out) Hn) as (Hne & _ & _).
    rewrite Clean_trailing by done. by apply Clean_render.
Qed.

(** The store key of a file is the path it was read from. *)
Lemma Join_Dir_Base r out n :
  path.normal r out = true -> path.validName n = true ->
  path.Join [path.Dir (path.render r (n :: out)); path.Base (path.render r (n :: out))]
  = path.render r (n :: out).
Proof.
  intros Hn Hv. rewrite Dir_render, Base_render by done. by apply Join_render.
Qed.

End PathFacts.

(** ** The file system: what path resolution returns *)

Section OsFacts.

Implicit Types (n root : os.node) (es : list (string * os.node)).

Lemma find_wf es c ch :
  forallb (fun e => os.wf (snd e)) es = true -> os.find c es = Some ch ->
  os.wf ch = true.
Proof.
  induction es as [|[k v] es IH]; [done|]. simpl.
  intros [Hv Hes]%andb_true_iff.
  destruct (String.eqb k c); [by intros [= <-] | by apply IH].
Qed.

Lemma wf_Directory es mt :
  os.wf (os.Directory es mt) = true ->
  forallb path.validName (map fst es) = true ∧ os.distinct (map fst es) = true
  ∧ forallb (fun e => os.wf (snd e)) es = true.
Proof. simpl. rewrite !andb_true_iff. tauto. Qed.

Lemma get_wf n cs m : os.wf n = true -> os.get n cs = Some m -> os.wf m = true.
Proof.
  revert n. induction cs as [|c cs IH]; intros n Hn; simpl; [by intros [= <-]|].
  destruct n as [| es mt |]; try done.
  destruct (os.find c es) as [ch|] eqn:Hf; [|done].
  apply IH. apply wf_Directory in Hn as (_ & _ & Hes). by eapply find_wf.
Qed.

Lemma walk_unfold links root follow cur todo :
  os.walk links root follow cur todo
  = match todo with
    | [] =>
        match os.get root cur with
        | Some n => Ok n
        | None => Err ENOENT
        end
    | c :: rest =>
        match os.get root cur with
        | Some (os.Directory es _) =>
            if String.eqb c "" || String.eqb c "." then os.walk links root follow cur rest
            else if String.eqb c ".." then os.walk links root follow (removelast cur) rest
            else
              match os.find c es with
              | None => Err ENOENT
              | Some (os.SymLink target mt) =>
                  if negb follow && (match rest with [] => true | _ => false end)
                  then Ok (os.SymLink target mt)
                  else if String.eqb target "" then Err ENOENT
                  else
                    match links with
                    | O => Err ELOOP
                    | S links' =>
                        os.walk links' root follow
                          (if path.rooted target then [] else cur)
                          (path.split target ++ rest)%list
                    end
              | Some _ => os.walk links root follow (cur ++ [c])%list rest
              end
        | Some _ => Err ENOTDIR
        | None => Err ENOENT
        end
    end.
Proof. destruct links, todo; reflexivity. Qed.

(** Whatever path resolution returns is a node of the tree, and its
    errors are errno values. *)
Lemma walk_wf links root follow cur todo n :
  os.wf root = true -> os.walk links root follow cur todo = Ok n -> os.wf n = true.
Proof.
  intros Hroot. revert cur todo n.
  induction links as [|links IHl]; intros cur todo; revert cur;
    (induction todo as [|c rest IHt]; intros cur n; rewrite walk_unfold;
     [ destruct (os.get root cur) as [m|] eqn:Hg; [|done];
       intros [= <-]; by eapply get_wf
     | destruct (os.get root cur) as [[| es mt |]|] eqn:Hg; try done;
       destruct (_ || _); [by apply IHt|];
       destruct (String.eqb c ".."); [by apply IHt|];
       destruct (os.find c es) as [[| |target mt']|] eqn:Hf; try done;
       try (by apply IHt);
       destruct (_ && _); [by intros [= <-]|];
       destruct (String.eqb target ""); [done|]; try done; by apply IHl ]).
Qed.

Lemma walk_errno links root follow cur todo msg :
  os.walk links root follow cur todo ≠ Err (Errorf msg).
Proof.
  revert cur todo.
  induction links as [|links IHl]; intros cur todo; revert cur;
    (induction todo as [|c rest IHt]; intros cur; rewrite walk_unfold;
     [ by destruct (os.get root cur)
     | destruct (os.get root cur) as [[| es mt |]|] eqn:Hg; try done;
       destruct (_ || _); [by apply IHt|];
       destruct (String.eqb c ".."); [by apply IHt|];
       destruct (os.find c es) as [[| |target mt']|] eqn:Hf; try done;
       try (by apply IHt);
       destruct (_ && _); [done|];
       destruct (String.eqb target ""); [done|]; try done; by apply IHl ]).
Qed.

Lemma namei_wf fs follow name n :
  os.wf (os.fsroot fs) = true -> os.namei fs follow name = Ok n -> os.wf n = true.
Proof.
  intros Hwf. unfold os.namei. destruct (String.eqb name ""); [done|].
  by apply walk_wf.
Qed.

Lemma namei_errno fs follow name msg : os.namei fs follow name ≠ Err (Errorf msg).
Proof.
  unfold os.namei. destruct (String.eqb name ""); [done|]. apply walk_errno.
Qed.

Lemma distinct_NoDup (names : list string) : os.distinct names = true -> NoDup names.
Proof.
  induction names as [|x l IH]; [constructor|]. simpl.
  intros [Hx Hl]%andb_true_iff. constructor; [|by apply IH].
  intros Hin%list_elem_of_In. apply negb_true_iff in Hx.
  assert (existsb (String.eqb x) l = true); [|congruence].
  apply existsb_exists. exists x. split; [done | apply String.eqb_refl].
Qed.

(** The names that [ReadDir] lists are file names, each listed once. *)
Lemma ReadDir_names fs p names :
  os.wf (os.fsroot fs) = true -> os.ReadDir fs p = Ok names ->
  Forall (fun x : string => path.validName x = true) names ∧ NoDup names.
Proof.
  intros Hwf. unfold os.ReadDir.
  destruct (os.namei fs true p) as [[| es mt |]|] eqn:Hn; try done.
  intros [= <-]. apply namei_wf in Hn; [|done].
  apply wf_Directory in Hn as (Hv & Hd & _). split.
  - apply List.Forall_forall. by apply forallb_forall.
  - by apply distinct_NoDup.
Qed.

(** No node is reported both as a symbolic link and as a directory. *)
Lemma info_symlink_not_dir n :
  (Z.land (os.Mode (os.info n)) os.ModeSymlink =? os.ModeSymlink)%Z = true ->
  os.IsDir (os.info n) = false.
Proof. by destruct n. Qed.

End OsFacts.

(** ** The loader: which keys a load writes *)

Section LoaderFacts.

Context `{RT : Runtime} (fs : os.filesystem).

Implicit Types (s : memoryFileServer.t) (f : siteFile.t) (p k : string).

Lemma loadFiles_unfold fuel s p :
  loadFiles fs (S fuel) s p
  = match inspect fs p with
    | Err e => Some (Err e)
    | Ok fi =>
        if negb (os.IsDir fi) then
          match readFile fs p (Z.to_nat (os.Size fi)) with
          | Err e => Some (Err e)
          | Ok f => Some (Ok (addFile s (setLastModified f (os.ModTime fi))))
          end
        else
          match os.ReadDir fs p with
          | Err e => Some (Err e)
          | Ok names => range (fun s n => loadFiles fs fuel s (path.Join [p; n])) names s
          end
    end.
Proof.
  unfold inspect. simpl. destruct (os.Lstat fs p) as [fi|e]; [|done].
  destruct (_ =? _)%Z; [|done]. by destruct (os.IsDir fi).
Qed.

(** The test for a directory behind a symbolic link is made on what
    [Lstat] reports for the link itself, which is never a directory: the
    error it guards is never returned. *)
Lemma inspect_errno p msg : inspect fs p ≠ Err (Errorf msg).
Proof.
  unfold inspect, os.Lstat, os.Stat.
  destruct (os.namei fs false p) as [n|e] eqn:Hn.
  - destruct (_ =? _)%Z eqn:Hl; [|done].
    rewrite (info_symlink_not_dir n Hl).
    destruct (os.namei fs true p) eqn:Hn'; [done|].
    intros [= ->]. by eapply namei_errno.
  - intros [= ->]. by eapply namei_errno.
Qed.

Lemma Read_errno n size buf (c : nat) msg : os.Read n size ≠ (buf, c, Some (Errorf msg)).
Proof. destruct n as [sz data mt| |]; [|done..]. by destruct size, data. Qed.

Lemma readFile_errno p size msg : readFile fs p size ≠ Err (Errorf msg).
Proof.
  unfold readFile, os.Open.
  destruct (os.namei fs true p) as [n|e] eqn:Hn.
  - destruct (os.Read n size) as [[buf k] [e|]] eqn:Hr.
    + intros [= ->]. by eapply Read_errno.
    + by destruct (compressContents buf).
  - intros [= ->]. by eapply namei_errno.
Qed.

Lemma range_errno (body : memoryFileServer.t -> string -> option (result memoryFileServer.t))
    names s msg :
  (∀ s n, body s n ≠ Some (Err (Errorf msg))) ->
  range body names s ≠ Some (Err (Errorf msg)).
Proof.
  intros Hb. revert s. induction names as [|n names IH]; intros s; [done|].
  simpl. destruct (body s n) as [[s'|e]|] eqn:Hn; [apply IH | | done].
  rewrite <- Hn. apply Hb.
Qed.

Lemma loadFiles_errno fuel s p msg : loadFiles fs fuel s p ≠ Some (Err (Errorf msg)).
Proof.
  revert s p. induction fuel as [|fuel IH]; intros s p; [done|].
  rewrite loadFiles_unfold.
  destruct (inspect fs p) as [fi|e] eqn:Hi.
  - destruct (negb (os.IsDir fi)).
    + destruct (readFile fs p _) as [f|e] eqn:Hr; [done|].
      intros [= ->]. by eapply readFile_errno.
    + destruct (os.ReadDir fs p) as [names|e] eqn:Hd.
      * apply range_errno. intros s' n. apply IH.
      * intros [= ->]. unfold os.ReadDir in Hd.
        destruct (os.namei fs true p) as [[]|] eqn:Hn; try done.
        injection Hd as ->. by eapply namei_errno.
  - intros [= ->]. by eapply inspect_errno.
Qed.

(** [addFile] *)
Lemma addFile_config s f : addFile s f = setFiles s (memoryFileServer.files (addFile s f)).
Proof. done. Qed.

Lemma addFile_key s f :
  memoryFileServer.files (addFile s f) !! path.Join [siteFile.dir f; siteFile.name f]
  = Some f.
Proof. unfold addFile. simpl. by rewrite lookup_insert_eq. Qed.

Lemma addFile_alias s f :
  siteFile.name f = memoryFileServer.index s ->
  memoryFileServer.files (addFile s f) !! siteFile.dir f = Some f.
Proof.
  intros Hn. unfold addFile. simpl. rewrite Hn, String.eqb_refl.
  rewrite lookup_insert. case_decide; [done|]. by rewrite lookup_insert_eq.
Qed.

Lemma addFile_other s f k :
  k ≠ path.Join [siteFile.dir f; siteFile.name f] ->
  (siteFile.name f = memoryFileServer.index s -> k ≠ siteFile.dir f) ->
  memoryFileServer.files (addFile s f) !! k = memoryFileServer.files s !! k.
Proof.
  intros Hk Ha. unfold addFile. simpl. rewrite lookup_insert_ne by done.
  destruct (String.eqb _ _) eqn:He; [|done].
  apply String.eqb_eq in He. by rewrite lookup_insert_ne by (by apply not_eq_sym, Ha).
Qed.

Lemma readFile_name_dir p size f :
  readFile fs p size = Ok f ->
  siteFile.name f = path.Base p ∧ siteFile.dir f = path.Dir p.
Proof.
  unfold readFile. destruct (os.Open fs p); [|done].
  destruct (os.Read _ _) as [[buf k] [e|]]; [done|].
  destruct (compressContents buf). by intros [= <-].
Qed.

Lemma sameConfig_refl s : sameConfig s s.
Proof. by destruct s. Qed.

Lemma sameConfig_trans s1 s2 s3 : sameConfig s1 s2 -> sameConfig s2 s3 -> sameConfig s1 s3.
Proof. unfold sameConfig. intros -> ->. done. Qed.

Lemma sameConfig_index s s' :
  sameConfig s s' -> memoryFileServer.index s' = memoryFileServer.index s.
Proof. by intros ->. Qed.

(** A property kept by every round of the loop is kept by the loop. *)
Lemma range_invariant (P : memoryFileServer.t -> memoryFileServer.t -> Prop)
    (body : memoryFileServer.t -> string -> option (result memoryFileServer.t))
    names s s' :
  (∀ s, P s s) -> (∀ s1 s2 s3, P s1 s2 -> P s2 s3 -> P s1 s3) ->
  (∀ s1 s2 n, In n names -> body s1 n = Some (Ok s2) -> P s1 s2) ->
  range body names s = Some (Ok s') -> P s s'.
Proof.
  intros Hrefl Htrans. revert s. induction names as [|n names IH]; intros s Hb.
  - intros [= <-]. apply Hrefl.
  - simpl. destruct (body s n) as [[s1|]|] eqn:Hn; try done.
    intros Hr. apply (Htrans _ s1).
    + apply (Hb s s1 n); [by left | done].
    + apply IH; [|done]. intros ? ? m Hm. apply Hb. by right.
Qed.

Lemma range_cons (body : memoryFileServer.t -> string -> option (result memoryFileServer.t))
    n names s :
  range body (n :: names) s
  = match body s n with
    | Some (Ok s') => range body names s'
    | other => other
    end.
Proof. done. Qed.

Lemma range_app (body : memoryFileServer.t -> string -> option (result memoryFileServer.t))
    pre post s s' :
  range body (pre ++ post) s = Some (Ok s') ->
  ∃ s1, range body pre s = Some (Ok s1) ∧ range body post s1 = Some (Ok s').
Proof.
  revert s. induction pre as [|n pre IH]; intros s; simpl.
  - intros Hr. by exists s.
  - destruct (body s n) as [[s1|]|]; try done. apply IH.
Qed.

Lemma loadFiles_config fuel s p s' :
  loadFiles fs fuel s p = Some (Ok s') -> sameConfig s s'.
Proof.
  revert s p s'. induction fuel as [|fuel IH]; intros s p s'; [done|].
  rewrite loadFiles_unfold. destruct (inspect fs p) as [fi|]; [|done].
  destruct (negb (os.IsDir fi)).
  - destruct (readFile fs p _); [|done]. intros [= <-]. apply addFile_config.
  - destruct (os.ReadDir fs p) as [names|]; [|done].
    apply range_invariant; [apply sameConfig_refl | apply sameConfig_trans |].
    intros s1 s2 n _. apply IH.
Qed.


Lemma tail_cancel {A} (l1 l2 : list A) a b out :
  (l1 ++ a :: out = l2 ++ b :: out)%list -> l1 = l2 ∧ a = b.
Proof.
  intros Heq.
  change ((l1 ++ [a] ++ out) = (l2 ++ [b] ++ out))%list in Heq.
  rewrite !app_assoc in Heq. apply app_inv_tail in Heq.
  by apply app_inj_tail in Heq.
Qed.

Lemma tail_neq {A} (l : list A) a out : out ≠ (l ++ a :: out)%list.
Proof.
  intros Heq. apply (f_equal (@length A)) in Heq.
  rewrite length_app in Heq. simpl in Heq. lia.
Qed.

Hypothesis Hwf : os.wf (os.fsroot fs) = true.

Lemma record_keys r out n size f0 t :
  path.normal r out = true -> path.validName n = true ->
  readFile fs (path.render r (n :: out)) size = Ok f0 ->
  let f := setLastModified f0 t in
  siteFile.name f = n ∧ siteFile.dir f = path.render r out
  ∧ path.Join [siteFile.dir f; siteFile.name f] = path.render r (n :: out).
Proof.
  intros Hn Hv [Hname Hdir]%readFile_name_dir. cbv zeta. simpl.
  rewrite Hname, Hdir, Base_render, Dir_render by done.
  repeat split. by apply Join_render.
Qed.

(** Loading the child [n] of a directory writes only keys at or below
    that child, and the key of the directory itself when [n] is the
    index name. *)
Lemma loadFiles_frame fuel s s' r out n k :
  path.normal r out = true -> path.validName n = true ->
  loadFiles fs fuel s (path.render r (n :: out)) = Some (Ok s') ->
  (∀ ns, path.normal r (ns ++ n :: out) = true -> k ≠ path.render r (ns ++ n :: out)) ->
  (n = memoryFileServer.index s -> k ≠ path.render r out) ->
  memoryFileServer.files s' !! k = memoryFileServer.files s !! k.
Proof.
  revert s s' out n. induction fuel as [|fuel IH]; intros s s' out n Hn Hv; [done|].
  rewrite loadFiles_unfold.
  destruct (inspect fs _) as [fi|]; [|done].
  destruct (negb (os.IsDir fi)).
  - destruct (readFile fs _ _) as [f0|] eqn:Hr; [|done].
    intros [= <-] Hbelow Hdir.
    destruct (record_keys r out n _ f0 (os.ModTime fi) Hn Hv Hr) as (Hname & Hd & Hkey).
    apply addFile_other.
    + rewrite Hkey. apply (Hbelow []). by apply normal_push.
    + rewrite Hname, Hd. exact Hdir.
  - destruct (os.ReadDir fs _) as [names|] eqn:Hd; [|done].
    intros Hrange Hbelow _.
    destruct (ReadDir_names fs _ names Hwf Hd) as [Hvalid _].
    assert (Hn' : path.normal r (n :: out) = true) by (by apply normal_push).
    pose (P := fun s1 s2 : memoryFileServer.t =>
                 memoryFileServer.files s2 !! k = memoryFileServer.files s1 !! k).
    change (P s s'). revert Hrange. apply range_invariant; [done | |].
    { unfold P. intros ? ? ? H1 H2. by rewrite H2. }
    intros s1 s2 m Hm. unfold P.
    rewrite Join_render; [|done|].
    2:{ rewrite List.Forall_forall in Hvalid. by apply Hvalid. }
    assert (Hvm : path.validName m = true).
    { rewrite List.Forall_forall in Hvalid. by apply Hvalid. }
    intros Hload. apply (IH s1 s2 (n :: out) m Hn' Hvm Hload).
    + intros ns Hns. specialize (Hbelow (ns ++ [m])%list).
      rewrite <- app_assoc in Hbelow. by apply Hbelow.
    + intros _. apply (Hbelow []). exact Hn'.
Qed.


#[local] Arguments path.Join : simpl never.
#[local] Arguments path.render : simpl never.
#[local] Arguments path.Clean : simpl never.

Lemma indexRecord_inv d idx f :
  indexRecord fs d idx = Some f ->
  ∃ fi names fi' f0,
    inspect fs d = Ok fi ∧ os.IsDir fi = true ∧ os.ReadDir fs d = Ok names
    ∧ In idx names ∧ inspect fs (path.Join [d; idx]) = Ok fi'
    ∧ os.IsDir fi' = false
    ∧ readFile fs (path.Join [d; idx]) (Z.to_nat (os.Size fi')) = Ok f0
    ∧ f = setLastModified f0 (os.ModTime fi').
Proof.
  unfold indexRecord.
  destruct (inspect fs d) as [fi|]; [|done].
  destruct (os.ReadDir fs d) as [names|]; [|done].
  destruct (os.IsDir fi) eqn:Hfi; [|done].
  destruct (existsb _ names) eqn:Hex; [|done]. cbn [andb].
  destruct (inspect fs (path.Join [d; idx])) as [fi'|]; [|done].
  destruct (os.IsDir fi') eqn:Hfi'; [done|].
  destruct (readFile fs _ _) as [f0|] eqn:Hr; [|done].
  intros [= <-]. exists fi, names, fi', f0. repeat split; try done.
  apply existsb_exists in Hex as (x & Hx & Heq). apply String.eqb_eq in Heq. by subst.
Qed.

Lemma inspect_nonempty p fi : inspect fs p = Ok fi -> p ≠ "".
Proof. intros Hi ->. done. Qed.

(** Within one directory: after the loop, the index entry holds the key
    of the directory and its own. *)
Lemma load_directory_index fuel s s' p f :
  loadFiles fs fuel s p = Some (Ok s') ->
  indexRecord fs p (memoryFileServer.index s) = Some f ->
  memoryFileServer.files s' !! path.Clean p = Some f
  ∧ memoryFileServer.files s' !! path.Join [p; memoryFileServer.index s] = Some f.
Proof.
  intros Hload (fi & names & fi' & f0 & Hi & Hdir & Hrd & Hin & Hi' & Hfile & Hread & ->)
    %indexRecord_inv.
  set (idx := memoryFileServer.index s) in *.
  pose proof (inspect_nonempty p fi Hi) as Hp.
  destruct (ReadDir_names fs p names Hwf Hrd) as [Hvalid Hnodup].
  rewrite List.Forall_forall in Hvalid.
  pose proof (scan_normal p) as Hnorm.
  set (r := path.rooted p) in *. set (out := path.scan p) in *.
  assert (Hchild : ∀ m, In m names -> path.Join [p; m] = path.render r (m :: out)).
  { intros m Hm. apply Join_child; [done | by apply Hvalid]. }
  rewrite Clean_nonempty by done. fold r out.
  rewrite (Hchild idx Hin) in *.
  destruct fuel as [|fuel]; [done|].
  rewrite loadFiles_unfold, Hi, Hdir, Hrd in Hload. cbn [negb] in Hload.
  destruct (in_split _ _ Hin) as (pre & post & ->).
  apply range_app in Hload as (s1 & Hpre & Hpost).
  assert (Hs1 : memoryFileServer.index s1 = idx).
  { apply sameConfig_index.
    revert Hpre. apply range_invariant; [apply sameConfig_refl | apply sameConfig_trans |].
    intros ? ? ? _. apply loadFiles_config. }
  rewrite range_cons, Hchild in Hpost by (apply in_or_app; right; by left).
  destruct fuel as [|fuel]; [done|].
  rewrite loadFiles_unfold, Hi', Hfile in Hpost. cbn [negb] in Hpost.
  rewrite Hread in Hpost.
  assert (Hvi : path.validName idx = true)
    by (apply Hvalid, in_or_app; right; by left).
  destruct (record_keys r out idx _ f0 (os.ModTime fi') Hnorm Hvi Hread)
    as (Hname & Hd & Hkey).
  set (f := setLastModified f0 (os.ModTime fi')) in *.
  set (s2 := addFile s1 f) in *.
  assert (Hs2 : memoryFileServer.files s2 !! path.render r out = Some f
                ∧ memoryFileServer.files s2 !! path.render r (idx :: out) = Some f
                ∧ memoryFileServer.index s2 = idx).
  { split; [|split; [|done]].
    - rewrite <- Hd. apply addFile_alias. by rewrite Hname.
    - rewrite <- Hkey. apply addFile_key. }
  apply NoDup_app in Hnodup as (_ & _ & Hnodup).
  apply NoDup_cons in Hnodup as [Hnodup _].
  pose (P := fun a b : memoryFileServer.t =>
    memoryFileServer.index a = idx ->
    memoryFileServer.index b = idx
    ∧ memoryFileServer.files b !! path.render r out
      = memoryFileServer.files a !! path.render r out
    ∧ memoryFileServer.files b !! path.render r (idx :: out)
      = memoryFileServer.files a !! path.render r (idx :: out)).
  assert (HP : P s2 s').
  { revert Hpost. apply range_invariant.
    - by intros a Ha.
    - intros a b c Hab Hbc Ha. destruct (Hab Ha) as (Hb & Hb1 & Hb2).
      destruct (Hbc Hb) as (Hc & Hc1 & Hc2). by rewrite Hc1, Hc2.
    - intros a b m Hm Hbody Ha.
      assert (Hmn : In m (pre ++ idx :: post)) by (apply in_or_app; right; by right).
      assert (Hne : m ≠ idx).
      { intros ->. by apply Hnodup, list_elem_of_In. }
      rewrite Hchild in Hbody by done.
      pose proof (Hvalid m Hmn) as Hvm.
      split; [|split].
      + rewrite (sameConfig_index a b); [done|]. exact (loadFiles_config _ _ _ _ Hbody).
      + apply (loadFiles_frame (S fuel) a b r out m _ Hnorm Hvm Hbody).
        * intros ns Hns Heq. apply render_inj in Heq; [|done..].
          by apply (tail_neq ns m out).
        * intros Hm'. by rewrite Ha in Hm'.
      + apply (loadFiles_frame (S fuel) a b r out m _ Hnorm Hvm Hbody).
        * intros ns Hns Heq. apply render_inj in Heq; [|by apply normal_push|done].
          apply (tail_cancel [] ns) in Heq as [_ Heq]. by apply Hne.
        * intros Hm'. by rewrite Ha in Hm'. }
  destruct Hs2 as (H1 & H2 & H3). destruct (HP H3) as (_ & H4 & H5).
  by rewrite H4, H5.
Qed.


Lemma descends_form p q :
  descends fs p q -> p ≠ "" ->
  ∃ ms, q ≠ "" ∧ path.rooted q = path.rooted p
        ∧ path.scan q = (ms ++ path.scan p)%list.
Proof.
  induction 1 as [p | p fi names n q Hi Hdir Hrd Hin Hdesc IH]; intros Hp.
  - by exists [].
  - destruct (ReadDir_names fs p names Hwf Hrd) as [Hvalid _].
    rewrite List.Forall_forall in Hvalid. pose proof (Hvalid n Hin) as Hvn.
    pose proof (normal_push _ _ n (scan_normal p) Hvn) as Hnorm.
    destruct (render_facts _ _ Hnorm) as (Hne & Hr & Hs).
    rewrite <- Join_child in Hne, Hr, Hs by done.
    destruct (IH Hne) as (ms & Hq & Hrq & Hsq).
    exists (ms ++ [n])%list. rewrite Hrq, Hr, Hsq, Hs, <- app_assoc. done.
Qed.

(** The loader, on the index entries: after a successful load from [p],
    every directory [d] that the traversal enters and that holds an index
    entry has that entry's record under its own cleaned path and under
    the entry's path. *)
Lemma load_index_below fuel s s' p d f :
  loadFiles fs fuel s p = Some (Ok s') ->
  descends fs p d ->
  indexRecord fs d (memoryFileServer.index s) = Some f ->
  memoryFileServer.files s' !! path.Clean d = Some f
  ∧ memoryFileServer.files s' !! path.Join [d; memoryFileServer.index s] = Some f.
Proof.
  intros Hload Hdesc. revert fuel s s' Hload.
  induction Hdesc as [p | p fi names n q Hi Hdir Hrd Hin Hdesc IH];
    intros fuel s s' Hload Hidx.
  { by eapply load_directory_index. }
  set (idx := memoryFileServer.index s) in *.
  pose proof (inspect_nonempty p fi Hi) as Hp.
  destruct (ReadDir_names fs p names Hwf Hrd) as [Hvalid Hnodup].
  rewrite List.Forall_forall in Hvalid.
  pose proof (scan_normal p) as Hnorm.
  set (r := path.rooted p) in *. set (out := path.scan p) in *.
  assert (Hchild : ∀ m, In m names -> path.Join [p; m] = path.render r (m :: out)).
  { intros m Hm. apply Join_child; [done | by apply Hvalid]. }
  pose proof (Hvalid n Hin) as Hvn.
  pose proof (normal_push _ _ n Hnorm Hvn) as Hnorm'.
  destruct (render_facts _ _ Hnorm') as (Hne & Hr & Hs).
  rewrite <- (Hchild n Hin) in Hne, Hr, Hs.
  destruct (descends_form _ _ Hdesc Hne) as (ms & Hq & Hrq & Hsq).
  rewrite Hr in Hrq. rewrite Hs in Hsq.
  (* the keys of the index entry of [q] *)
  destruct (indexRecord_inv _ _ _ Hidx)
    as (fiq & namesq & _ & _ & _ & _ & Hrdq & Hinq & _).
  assert (Hvi : path.validName idx = true).
  { destruct (ReadDir_names fs q namesq Hwf Hrdq) as [Hv _].
    rewrite List.Forall_forall in Hv. by apply Hv. }
  pose proof (scan_normal q) as Hnq. rewrite Hrq, Hsq in Hnq.
  assert (HK1 : path.Clean q = path.render r (ms ++ n :: out)).
  { by rewrite Clean_nonempty, Hrq, Hsq. }
  assert (HK2 : path.Join [q; idx] = path.render r (idx :: ms ++ n :: out)).
  { by rewrite Join_child, Hrq, Hsq. }
  (* the loop *)
  destruct fuel as [|fuel]; [done|].
  rewrite loadFiles_unfold, Hi, Hdir, Hrd in Hload. cbn [negb] in Hload.
  destruct (in_split _ _ Hin) as (pre & post & ->).
  apply range_app in Hload as (s1 & Hpre & Hpost).
  assert (Hs1 : memoryFileServer.index s1 = idx).
  { apply sameConfig_index.
    revert Hpre. apply range_invariant; [apply sameConfig_refl | apply sameConfig_trans |].
    intros ? ? ? _. apply loadFiles_config. }
  rewrite range_cons in Hpost.
  destruct (loadFiles fs fuel s1 (path.Join [p; n])) as [[s2|]|] eqn:Hn; try done.
  destruct (IH fuel s1 s2 Hn) as [H1 H2]; [by rewrite Hs1|].
  rewrite Hs1 in H2.
  apply NoDup_app in Hnodup as (_ & _ & Hnodup).
  apply NoDup_cons in Hnodup as [Hnodup _].
  pose (P := fun a b : memoryFileServer.t =>
    memoryFileServer.files b !! path.Clean q = memoryFileServer.files a !! path.Clean q
    ∧ memoryFileServer.files b !! path.Join [q; idx]
      = memoryFileServer.files a !! path.Join [q; idx]).
  assert (HP : P s2 s').
  { revert Hpost. apply range_invariant.
    - by intros a.
    - intros a b c [Hb1 Hb2] [Hc1 Hc2]. split; congruence.
    - intros a b m Hm Hbody.
      assert (Hmn : In m (pre ++ n :: post)) by (apply in_or_app; right; by right).
      assert (Hne' : n ≠ m).
      { intros ->. by apply Hnodup, list_elem_of_In. }
      rewrite Hchild in Hbody by done.
      pose proof (Hvalid m Hmn) as Hvm.
      unfold P. rewrite HK1, HK2. split.
      + apply (loadFiles_frame fuel a b r out m _ Hnorm Hvm Hbody).
        * intros ns Hns Heq. apply render_inj in Heq; [|done..].
          apply tail_cancel in Heq as [_ Heq]. by apply Hne'.
        * intros _ Heq. apply render_inj in Heq; [|done..].
          symmetry in Heq. by apply tail_neq in Heq.
      + assert (Hni : path.normal r (idx :: ms ++ n :: out) = true)
          by (by apply normal_push).
        apply (loadFiles_frame fuel a b r out m _ Hnorm Hvm Hbody).
        * intros ns Hns Heq. apply render_inj in Heq; [|done..].
          apply (tail_cancel (idx :: ms) ns) in Heq as [_ Heq]. by apply Hne'.
        * intros _ Heq. apply render_inj in Heq; [|done..].
          symmetry in Heq. by apply (tail_neq (idx :: ms)) in Heq. }
  destruct HP as [H3 H4]. by rewrite H3, H4.
Qed.

End LoaderFacts.

(** ** The response recorder *)

Section HandlerFacts.

Context `{RT : Runtime}.

Implicit Types (s : memoryFileServer.t) (r : http.Request) (f : siteFile.t)
  (w : http.ResponseWriter).

Lemma eqb_false_of_ne (a b : string) : a ≠ b -> String.eqb a b = false.
Proof. intros Hab. by apply String.eqb_neq. Qed.

Lemma SetHeaders_wrote f w :
  http.wroteHeader (SetHeaders f w) = http.wroteHeader w.
Proof. unfold SetHeaders. by destruct (siteFile.isGzipped f). Qed.

Lemma SetHeaders_body f w : http.RespBody (SetHeaders f w) = http.RespBody w.
Proof. unfold SetHeaders. by destruct (siteFile.isGzipped f). Qed.

(** The four headers of an asset, and nothing else. *)
Lemma assetHeaders_lookup f :
  assetHeaders f !! "Content-Length" = Some [Sprint (length (siteFile.contents f))]
  ∧ assetHeaders f !! "Content-Type" = Some [siteFile.mimeType f]
  ∧ assetHeaders f !! "Last-Modified" = Some [FormatHTTPTime (siteFile.lastModified f)]
  ∧ assetHeaders f !! "Content-Encoding"
    = (if siteFile.isGzipped f then Some ["gzip"] else None)
  ∧ ∀ k, k ≠ "Content-Length" -> k ≠ "Content-Type" -> k ≠ "Last-Modified" ->
         k ≠ "Content-Encoding" -> assetHeaders f !! k = None.
Proof.
  unfold assetHeaders, SetHeaders, http.setHeader, http.Set_.
  destruct (siteFile.isGzipped f); simpl; repeat split;
    intros; by simplify_map_eq.
Qed.

Lemma carries_of_sent w f : http.Sent w = assetHeaders f -> carries w f.
Proof. intros Hs. unfold carries. rewrite Hs. apply assetHeaders_lookup. Qed.

Lemma method_cases r :
  getOrHead r ->
  (http.Method r = "GET" ∧ String.eqb (http.Method r) "HEAD" = false
   ∧ String.eqb (http.Method r) "OPTIONS" = false
   ∧ String.eqb (http.Method r) "GET" = true)
  ∨ (http.Method r = "HEAD" ∧ String.eqb (http.Method r) "HEAD" = true
     ∧ String.eqb (http.Method r) "OPTIONS" = false
     ∧ String.eqb (http.Method r) "GET" = false).
Proof. intros [-> | ->]; [left | right]; done. Qed.

(** Past the HTTPS gate, a GET or HEAD goes to [serveFile]. *)
Lemma ServeHTTP_serveFile s w r :
  getOrHead r -> shouldRedirectToHTTPS s r = false ->
  ServeHTTP s w r = serveFile s w r.
Proof.
  intros Hm Hg. unfold ServeHTTP, http.MethodOptions, http.MethodGet, http.MethodHead.
  rewrite Hg.
  destruct (method_cases r Hm) as [(_ & Hh & Ho & Hge) | (_ & Hh & Ho & Hge)];
    by rewrite Ho, Hge, ?Hh.
Qed.

Lemma serve_full f r :
  served f r
    (let w := SetHeaders f http.NewRecorder in
     if negb (String.eqb (http.Method r) http.MethodHead)
     then http.Write w (siteFile.contents f) else w).
Proof.
  unfold served, http.MethodHead.
  destruct (String.eqb (http.Method r) "HEAD"); simpl.
  - unfold http.Code, http.Sent. rewrite SetHeaders_wrote, SetHeaders_body. done.
  - unfold http.Code, http.Sent, http.Write, http.WriteHeader. simpl.
    rewrite !SetHeaders_wrote, SetHeaders_body. done.
Qed.

(** The three outcomes of [serveFile] on an asset that is not addressed
    by the index name, by the value of [If-Modified-Since]. *)
Lemma serveFile_asset s r f :
  resolveFile s (http.URL_Path r) = Some f ->
  path.Base (http.URL_Path r) ≠ memoryFileServer.index s ->
  let v := http.Get (http.ReqHeader r) "If-Modified-Since" in
  let w := serveFile s http.NewRecorder r in
  if String.eqb v "" then served f r w
  else match ParseHTTPTime v with
       | None => http.Code w = 400%Z ∧ http.Sent w = ∅ ∧ http.RespBody w = []
       | Some t =>
           if time.Before t (siteFile.lastModified f) then served f r w
           else http.Code w = 304%Z ∧ http.Sent w = assetHeaders f
                ∧ http.RespBody w = []
       end.
Proof.
  intros Hres Hbase. cbv zeta. unfold serveFile. rewrite Hres.
  rewrite (eqb_false_of_ne _ _ Hbase).
  destruct (String.eqb (http.Get (http.ReqHeader r) "If-Modified-Since") ""); simpl.
  - apply serve_full.
  - destruct (ParseHTTPTime _) as [t|]; [|done].
    destruct (time.Before t (siteFile.lastModified f)); simpl.
    + apply serve_full.
    + unfold http.Code, http.Sent, http.WriteHeader.
      rewrite SetHeaders_wrote, SetHeaders_body. done.
Qed.

(** An asset addressed by the index name is answered by a redirect to
    the directory of the request path. *)
Lemma serveFile_index s r f :
  resolveFile s (http.URL_Path r) = Some f ->
  path.Base (http.URL_Path r) = memoryFileServer.index s ->
  serveFile s http.NewRecorder r
  = http.Redirect http.NewRecorder r (path.Dir (http.URL_Path r)) 301.
Proof.
  intros Hres Hbase. unfold serveFile. rewrite Hres, Hbase, String.eqb_refl. done.
Qed.

Lemma serveFile_absent s r :
  resolveFile s (http.URL_Path r) = None ->
  serveFile s http.NewRecorder r = serve404 s http.NewRecorder r.
Proof. intros Hres. unfold serveFile. by rewrite Hres. Qed.

(** [http.Redirect] on a fresh response. *)
Lemma Redirect_fresh r url code :
  let w := http.Redirect http.NewRecorder r url code in
  http.Code w = code
  ∧ http.Get (http.Sent w) "Location"
    = http.hexEscapeNonASCII (http.redirectLocation (http.URL_Path r) url)
  ∧ (http.Method r ≠ "GET" -> http.RespBody w = []).
Proof.
  cbv zeta. unfold http.Redirect.
  replace (bool_decide (is_Some (http.RespHeader http.NewRecorder !! "Content-Type")))
    with false by done.
  simpl negb. cbv iota. rewrite !andb_true_l.
  destruct (String.eqb (http.Method r) "GET") eqn:Hg; simpl.
  - apply String.eqb_eq in Hg. repeat split; try done.
  - apply String.eqb_neq in Hg.
    destruct (String.eqb (http.Method r) "HEAD"); repeat split; done.
Qed.

(** [serve404]: status 404 either way; the fallback record's headers and
    body (unless HEAD) when there is one, the library's reply when not. *)
Lemma serve404_fresh s r :
  let w := serve404 s http.NewRecorder r in
  match memoryFileServer.error404 s with
  | None => w = genericNotFound
  | Some e =>
      http.Code w = 404%Z ∧ http.Sent w = assetHeaders e
      ∧ http.RespBody w
        = (if String.eqb (http.Method r) "HEAD" then [] else siteFile.contents e)
  end.
Proof.
  cbv zeta. unfold serve404. destruct (memoryFileServer.error404 s) as [e|]; [|done].
  unfold http.MethodHead.
  destruct (String.eqb (http.Method r) "HEAD"); simpl;
    unfold http.Code, http.Sent, http.Write, http.WriteHeader; simpl;
    rewrite !SetHeaders_wrote, ?SetHeaders_body; done.
Qed.

Lemma genericNotFound_response :
  http.Code genericNotFound = 404%Z
  ∧ http.Sent genericNotFound
    = <["X-Content-Type-Options" := ["nosniff"]]>
        (<["Content-Type" := ["text/plain; charset=utf-8"]]> ∅)
  ∧ http.RespBody genericNotFound
    = list_byte_of_string ("404 page not found" +:+ http.newline).
Proof. done. Qed.

End HandlerFacts.

(** ** Conditional requests *)

Section Conditional.

Context `{RT : Runtime}.

(** C4, as the code has it.  For a GET or HEAD that resolves to an asset
    [f] and is not addressed by the index name: an empty
    [If-Modified-Since] value is treated like an absent header (the asset
    is served in full); a non-empty value that does not parse yields 400
    with no headers and no body; a parsed time not strictly before
    [lastModified] yields 304 with no body, for either method; a parsed
    time strictly before [lastModified] yields 200 and, for GET, the
    full body.  The 304 and the 200 carry exactly the asset's headers:
    Content-Length (the decimal length of the stored content),
    Content-Type, Last-Modified (the modification time as an HTTP date)
    and, if and only if the record is compressed, Content-Encoding
    gzip. *)
Theorem if_modified_since_outcomes s r f :
  getOrHead r ->
  shouldRedirectToHTTPS s r = false ->
  resolveFile s (http.URL_Path r) = Some f ->
  path.Base (http.URL_Path r) ≠ memoryFileServer.index s ->
  let v := http.Get (http.ReqHeader r) "If-Modified-Since" in
  let w := ServeHTTP s http.NewRecorder r in
  (v = "" -> served f r w ∧ carries w f)
  ∧ (v ≠ "" -> ParseHTTPTime v = None ->
       http.Code w = 400%Z ∧ http.Sent w = ∅ ∧ http.RespBody w = [])
  ∧ (∀ t, v ≠ "" -> ParseHTTPTime v = Some t ->
       time.Before t (siteFile.lastModified f) = false ->
       http.Code w = 304%Z ∧ http.Sent w = assetHeaders f ∧ http.RespBody w = []
       ∧ carries w f)
  ∧ (∀ t, v ≠ "" -> ParseHTTPTime v = Some t ->
       time.Before t (siteFile.lastModified f) = true ->
       served f r w ∧ carries w f).
Proof.
  intros Hm Hg Hres Hbase. cbv zeta.
  rewrite (ServeHTTP_serveFile s _ r Hm Hg).
  pose proof (serveFile_asset s r f Hres Hbase) as Hs. cbv zeta in Hs.
  split; [|split; [|split]].
  - intros Hv. rewrite Hv in Hs. split; [exact Hs|].
    apply carries_of_sent. by destruct Hs as (_ & Hh & _).
  - intros Hv Hp. rewrite (eqb_false_of_ne _ _ Hv), Hp in Hs. exact Hs.
  - intros t Hv Hp Hb. rewrite (eqb_false_of_ne _ _ Hv), Hp, Hb in Hs.
    destruct Hs as (Hc & Hh & Hbody).
    split; [exact Hc|]. split; [exact Hh|]. split; [exact Hbody|].
    by apply carries_of_sent.
  - intros t Hv Hp Hb. rewrite (eqb_false_of_ne _ _ Hv), Hp, Hb in Hs.
    split; [exact Hs|]. apply carries_of_sent. by destruct Hs as (_ & Hh & _).
Qed.

End Conditional.

Section ConditionalExamples.

#[local] Existing Instance sample.runtime.

(** [/site/hello.txt], two bytes long and last modified at [T0], asked
    for with that very time: not modified, with the asset's headers. *)
Lemma if_modified_since_outcomes_witness :
  let r := sample.request "GET" "/hello.txt"
             [("If-Modified-Since", "Wed, 21 Oct 2015 07:28:00 GMT")] in
  let w := ServeHTTP (sample.server sample.site "" false) http.NewRecorder r in
  http.Code w = 304%Z ∧ http.RespBody w = []
  ∧ http.Sent w !! "Content-Length" = Some ["2"]
  ∧ http.Sent w !! "Last-Modified" = Some ["Wed, 21 Oct 2015 07:28:00 GMT"]
  ∧ http.Sent w !! "Content-Encoding" = None.
Proof.
  cbv zeta.
  edestruct (if_modified_since_outcomes (RT := sample.runtime)
               (sample.server sample.site "" false)
               (sample.request "GET" "/hello.txt"
                  [("If-Modified-Since", "Wed, 21 Oct 2015 07:28:00 GMT")]))
    as (_ & _ & Hnot & _).
  - left. reflexivity.
  - vm_compute. reflexivity.
  - vm_compute. reflexivity.
  - vm_compute. discriminate.
  - edestruct Hnot as (Hc & _ & Hb & Hl & _ & Hlm & He & _).
    + vm_compute. discriminate.
    + vm_compute. reflexivity.
    + vm_compute. reflexivity.
    + split; [exact Hc|]. split; [exact Hb|].
      split; [exact Hl|]. split; [exact Hlm | exact He].
Defined.

(** C4 as stated fails where the header is present with an empty value:
    the value does not parse as a date, yet the answer is 200 with the
    body, not 400. *)
Lemma empty_if_modified_since_is_served :
  let s := sample.server sample.site "" false in
  let r := sample.request "GET" "/hello.txt" [("If-Modified-Since", "")] in
  http.ReqHeader r !! "If-Modified-Since" = Some [""]
  ∧ ParseHTTPTime (http.Get (http.ReqHeader r) "If-Modified-Since") = None
  ∧ is_Some (resolveFile s (http.URL_Path r))
  ∧ path.Base (http.URL_Path r) ≠ memoryFileServer.index s
  ∧ http.Code (ServeHTTP s http.NewRecorder r) = 200%Z
  ∧ http.Code (ServeHTTP s http.NewRecorder r) ≠ 400%Z
  ∧ http.RespBody (ServeHTTP s http.NewRecorder r) = sample.bytes "hi".
Proof.
  cbv zeta. evaluated.
Qed.

End ConditionalExamples.

(** ** The HTTPS gate *)

Section Gate.

Context `{RT : Runtime}.

Lemma shouldRedirectToHTTPS_true s r :
  memoryFileServer.forceHTTPS s = true ->
  http.Get (http.ReqHeader r) "X-Forwarded-Proto" = "http" ->
  shouldRedirectToHTTPS s r = true.
Proof. intros Hf Hx. unfold shouldRedirectToHTTPS. by rewrite Hf, Hx. Qed.

(** C6.  With HTTPS enforcement on, a request whose [X-Forwarded-Proto]
    is "http" is answered, whatever its method and path and whatever the
    store holds, by [http.Redirect] with status 301 to "https://", the
    configured server name (the request's host when the name is empty)
    and the request URI; nothing else of the handler runs. *)
Theorem https_gate_redirects s r :
  memoryFileServer.forceHTTPS s = true ->
  http.Get (http.ReqHeader r) "X-Forwarded-Proto" = "http" ->
  let host := if String.eqb (memoryFileServer.name s) ""
              then http.Host r else memoryFileServer.name s in
  let target := "https://" +:+ host +:+ http.RequestURI r in
  let w := ServeHTTP s http.NewRecorder r in
  w = http.Redirect http.NewRecorder r target 301
  ∧ http.Code w = 301%Z
  ∧ http.Get (http.Sent w) "Location" = http.hexEscapeNonASCII target
  ∧ ∀ m e, ServeHTTP
             {| memoryFileServer.name := memoryFileServer.name s;
                memoryFileServer.root := memoryFileServer.root s;
                memoryFileServer.files := m;
                memoryFileServer.index := memoryFileServer.index s;
                memoryFileServer.error404 := e;
                memoryFileServer.error404Name := memoryFileServer.error404Name s;
                memoryFileServer.forceHTTPS := memoryFileServer.forceHTTPS s;
                memoryFileServer.addrHeader := memoryFileServer.addrHeader s |}
             http.NewRecorder r = w.
Proof.
  intros Hf Hx. cbv zeta.
  assert (Hw : ServeHTTP s http.NewRecorder r
               = http.Redirect http.NewRecorder r
                   ("https://" +:+ (if String.eqb (memoryFileServer.name s) ""
                                    then http.Host r else memoryFileServer.name s)
                    +:+ http.RequestURI r) 301).
  { unfold ServeHTTP. by rewrite (shouldRedirectToHTTPS_true s r Hf Hx). }
  split; [exact Hw|]. rewrite Hw.
  destruct (Redirect_fresh r
              ("https://" +:+ (if String.eqb (memoryFileServer.name s) ""
                               then http.Host r else memoryFileServer.name s)
               +:+ http.RequestURI r) 301) as (Hc & Hl & _).
  split; [exact Hc|]. split.
  - rewrite Hl. unfold http.redirectLocation.
    by rewrite urlIsRelative_https.
  - intros m e. unfold ServeHTTP at 1.
    rewrite shouldRedirectToHTTPS_true; [done | exact Hf | exact Hx].
Qed.

End Gate.

Section GateExamples.

#[local] Existing Instance sample.runtime.

(** A POST of a path that does not resolve, on a server without a name:
    redirected to the request's own host. *)
Lemma https_gate_redirects_witness :
  let r := sample.request "POST" "/nope?x=1" [("X-Forwarded-Proto", "http")] in
  let w := ServeHTTP (sample.server sample.site "" true) http.NewRecorder r in
  http.Code w = 301%Z
  ∧ http.Get (http.Sent w) "Location" = "https://example.com/nope?x=1".
Proof.
  cbv zeta.
  destruct (https_gate_redirects (RT := sample.runtime)
              (sample.server sample.site "" true)
              (sample.request "POST" "/nope?x=1" [("X-Forwarded-Proto", "http")]))
    as (_ & Hc & Hl & _).
  - vm_compute. reflexivity.
  - vm_compute. reflexivity.
  - split; [exact Hc | exact Hl].
Defined.

End GateExamples.

(** ** HEAD against GET *)

Section HeadGet.

Context `{RT : Runtime}.

Lemma shouldRedirectToHTTPS_withMethod s r m :
  shouldRedirectToHTTPS s (withMethod r m) = shouldRedirectToHTTPS s r.
Proof. reflexivity. Qed.

Ltac recorded :=
  unfold http.Code, http.Sent, http.Fprintln, http.Write, http.WriteHeader; simpl;
  rewrite ?SetHeaders_wrote, ?SetHeaders_body; simpl;
  rewrite ?SetHeaders_wrote, ?SetHeaders_body; try done.

Lemma Redirect_head_get r url code :
  let g := http.Redirect http.NewRecorder (withMethod r "GET") url code in
  let h := http.Redirect http.NewRecorder (withMethod r "HEAD") url code in
  http.Code h = http.Code g ∧ http.Sent h = http.Sent g ∧ http.RespBody h = [].
Proof. cbv zeta. unfold http.Redirect. simpl. done. Qed.

(** What holds of the HEAD form of every request.  For every server and
    request, the handler gives the HEAD form the same status and the
    same headers as the GET form.  It writes no body for HEAD, except in
    the generic not-found reply (no fallback-404 record, path not
    resolved), where [http.NotFound] writes the same text for both
    methods. *)
Lemma head_mirrors_get s r :
  let g := ServeHTTP s http.NewRecorder (withMethod r "GET") in
  let h := ServeHTTP s http.NewRecorder (withMethod r "HEAD") in
  http.Code h = http.Code g
  ∧ http.Sent h = http.Sent g
  ∧ match shouldRedirectToHTTPS s r, resolveFile s (http.URL_Path r),
          memoryFileServer.error404 s with
    | false, None, None =>
        http.RespBody h = http.RespBody g
        ∧ http.RespBody h = list_byte_of_string ("404 page not found" +:+ http.newline)
    | _, _, _ => http.RespBody h = []
    end.
Proof.
  cbv zeta. unfold ServeHTTP. rewrite !shouldRedirectToHTTPS_withMethod.
  destruct (shouldRedirectToHTTPS s r).
  { unfold redirectToHTTPS. simpl. apply Redirect_head_get. }
  simpl. unfold serveFile. simpl.
  destruct (resolveFile s (http.URL_Path r)) as [f|].
  - destruct (String.eqb (path.Base (http.URL_Path r)) (memoryFileServer.index s)).
    { unfold redirectIndex. simpl. apply Redirect_head_get. }
    destruct (String.eqb (http.Get (http.ReqHeader r) "If-Modified-Since") ""); simpl.
    { recorded. }
    destruct (ParseHTTPTime _) as [t|]; [|done].
    destruct (time.Before t (siteFile.lastModified f)); simpl; recorded.
  - unfold serve404. destruct (memoryFileServer.error404 s) as [e|]; simpl.
    + recorded.
    + done.
Qed.

End HeadGet.

Section HeadGetExamples.

#[local] Existing Instance sample.runtime.


End HeadGetExamples.

(** ** Resolution *)

Section Resolution.

Context `{RT : Runtime}.

Lemma Redirect_code w r url code :
  http.wroteHeader w = None -> http.Code (http.Redirect w r url code) = code.
Proof.
  intros Hw. unfold http.Redirect.
  destruct (bool_decide _); simpl;
    destruct (String.eqb (http.Method r) "GET"); simpl;
    destruct (String.eqb (http.Method r) "HEAD"); simpl;
    unfold http.Code, http.Fprintln, http.Write, http.WriteHeader; simpl;
    rewrite ?Hw; simpl; rewrite ?Hw; done.
Qed.

Lemma serve404_code s r : http.Code (serve404 s http.NewRecorder r) = 404%Z.
Proof.
  pose proof (serve404_fresh s r) as Hs. cbv zeta in Hs.
  destruct (memoryFileServer.error404 s); [apply Hs | by rewrite Hs].
Qed.

(** C9.  [resolveFile] is the lookup of the cleaned join of the root and
    the request path among the keys of the store: request paths with the
    same cleaned join resolve alike, and a request whose cleaned join is
    not a key is never answered with an asset: its status is 301 (HTTPS
    gate), 204 (OPTIONS), 405, or, for GET and HEAD, the 404 of
    [serve404]. *)
Theorem resolution_is_exact_lookup s :
  (∀ p, resolveFile s p
        = memoryFileServer.files s !! path.Join [memoryFileServer.root s; p])
  ∧ (∀ p q, path.Join [memoryFileServer.root s; p]
            = path.Join [memoryFileServer.root s; q] ->
            resolveFile s p = resolveFile s q)
  ∧ (∀ r, memoryFileServer.files s
            !! path.Join [memoryFileServer.root s; http.URL_Path r] = None ->
          let w := ServeHTTP s http.NewRecorder r in
          (http.Code w = 301%Z ∨ http.Code w = 204%Z
           ∨ http.Code w = 404%Z ∨ http.Code w = 405%Z)
          ∧ (getOrHead r -> shouldRedirectToHTTPS s r = false ->
             w = serve404 s http.NewRecorder r ∧ http.Code w = 404%Z)).
Proof.
  split; [done|]. split.
  { intros p q Hpq. unfold resolveFile. by rewrite Hpq. }
  intros r Hnone. cbv zeta. split.
  - unfold ServeHTTP.
    destruct (shouldRedirectToHTTPS s r).
    { left. unfold redirectToHTTPS. by apply Redirect_code. }
    destruct (String.eqb (http.Method r) http.MethodOptions).
    { right. left. done. }
    destruct (_ || _).
    + right. right. left. rewrite serveFile_absent by exact Hnone.
      apply serve404_code.
    + right. right. right. done.
  - intros Hm Hg. rewrite ServeHTTP_serveFile by done.
    rewrite serveFile_absent by exact Hnone.
    split; [done | apply serve404_code].
Qed.

End Resolution.

Section ResolutionExamples.

#[local] Existing Instance sample.runtime.

(** Doubled slashes, "." and ".." elements and a trailing slash all lead
    to the record of [/site/hello.txt]; a prefix of its name and a path
    below it lead nowhere. *)
Lemma resolution_is_exact_lookup_witness :
  let s := sample.server sample.site "" false in
  resolveFile s "//docs/.././hello.txt/" = resolveFile s "/hello.txt"
  ∧ is_Some (resolveFile s "/hello.txt")
  ∧ resolveFile s "/hello.tx" = None
  ∧ resolveFile s "/hello.txt/more" = None
  ∧ http.Code (ServeHTTP s http.NewRecorder (sample.request "GET" "/hello.tx" [])) = 404%Z.
Proof.
  cbv zeta.
  destruct (resolution_is_exact_lookup (sample.server sample.site "" false))
    as (_ & Hsame & Habsent).
  split; [apply Hsame; vm_compute; reflexivity|].
  split; [vm_compute; eexists; reflexivity|].
  split; [vm_compute; reflexivity|].
  split; [vm_compute; reflexivity|].
  destruct (Habsent (sample.request "GET" "/hello.tx" [])) as (_ & Hget).
  - vm_compute. reflexivity.
  - apply Hget; [left; reflexivity | vm_compute; reflexivity].
Defined.

End ResolutionExamples.

(** ** Request paths below a directory *)

Section RequestPaths.

Lemma Join_pair root p :
  root ≠ "" -> path.Join [root; p] = path.Clean (root +:+ String "/" p).
Proof.
  intros Hr. unfold path.Join. by rewrite (proj2 (String.eqb_neq root "") Hr).
Qed.

(** The root-joined path of a request for an entry of a directory is
    the join of the directory's own root-joined path and the entry. *)
Lemma Join_extend root p n :
  root ≠ "" -> path.validName n = true ->
  path.Join [root; p +:+ String "/" n] = path.Join [path.Join [root; p]; n].
Proof.
  intros Hr Hn. rewrite !Join_pair by done.
  set (x := root +:+ String "/" p).
  assert (Hx : x ≠ "") by (by apply app_nonempty).
  replace (root +:+ String "/" (p +:+ String "/" n)) with (x +:+ String "/" n)
    by apply append_assoc_slash.
  rewrite (Join_pair root p) by done. fold x.
  rewrite (Clean_nonempty x) by done.
  rewrite Join_render by (done || apply scan_normal).
  rewrite Clean_nonempty by (by apply app_nonempty).
  rewrite rooted_app by done. f_equal.
  unfold path.scan at 1. rewrite rooted_app by done.
  rewrite split_app, fold_left_app.
  rewrite split_name by (by apply validName_inv in Hn as (_ & _ & _ & Hn)).
  simpl. by apply step_name.
Qed.

Lemma Join_Clean d n :
  d ≠ "" -> path.validName n = true ->
  path.Join [path.Clean d; n] = path.Join [d; n].
Proof.
  intros Hd Hn. rewrite Clean_nonempty, Join_render, Join_child; try done.
  apply scan_normal.
Qed.

Lemma Base_child a n :
  path.validName n = true -> path.Base (a +:+ String "/" n) = n.
Proof.
  intros (Hne & _ & _ & Hs)%validName_inv. unfold path.Base.
  destruct (a +:+ String "/" n) eqn:Ha; [by destruct a|]. rewrite <- Ha.
  replace (a +:+ String "/" n) with ((a +:+ "/") +:+ n).
  2:{ clear. induction a as [|x a IH]; [done|]. rewrite !app_cons. by rewrite IH. }
  rewrite trimSlashes_app by done.
  replace ((a +:+ "/") +:+ n) with (a +:+ String "/" n).
  2:{ clear. induction a as [|x a IH]; [done|]. rewrite !app_cons. by rewrite IH. }
  rewrite Split_app by done. simpl.
  by rewrite (proj2 (String.eqb_neq n "") Hne).
Qed.

Lemma Dir_child a n :
  path.hasSlash n = false -> path.Dir (a +:+ String "/" n) = path.Clean (a +:+ "/").
Proof. intros Hn. unfold path.Dir. by rewrite Split_app. Qed.

End RequestPaths.

(** ** Startup *)

Section Startup.

Context `{RT : Runtime} (fs : os.filesystem).

Lemma compressContents_spec raw :
  (snd (compressContents raw) = true
   ↔ snd (gzipWrite raw) = None ∧ length (fst (gzipWrite raw)) < length raw)
  ∧ (snd (compressContents raw) = true -> fst (compressContents raw) = fst (gzipWrite raw)).
Proof.
  unfold compressContents. destruct (gzipWrite raw) as [buf [e|]]; simpl.
  - split; [|done]. split; [done | by intros [? _]].
  - destruct (length raw <=? length buf)%nat eqn:Hle; simpl.
    + apply Nat.leb_le in Hle. split; [|done]. split; [done | intros [_ ?]; lia].
    + apply Nat.leb_gt in Hle. done.
Qed.

Lemma readFile_ok p size node raw k :
  os.Open fs p = Ok node -> os.Read node size = (raw, k, None) ->
  ∃ f, readFile fs p size = Ok f
       ∧ siteFile.name f = path.Base p ∧ siteFile.dir f = path.Dir p
       ∧ siteFile.isGzipped f = snd (compressContents raw)
       ∧ siteFile.contents f
         = (if snd (compressContents raw) then fst (compressContents raw) else raw).
Proof.
  intros Ho Hr. unfold readFile. rewrite Ho, Hr.
  destruct (compressContents raw) as [gz ok]. eexists. split; [done|]. done.
Qed.

Lemma loadFiles_file fuel s p fi :
  inspect fs p = Ok fi -> os.IsDir fi = false ->
  loadFiles fs (S fuel) s p
  = match readFile fs p (Z.to_nat (os.Size fi)) with
    | Ok f => Some (Ok (addFile s (setLastModified f (os.ModTime fi))))
    | Err e => Some (Err e)
    end.
Proof. intros Hi Hd. by rewrite loadFiles_unfold, Hi, Hd. Qed.

(** C3.  A file that the loader can read always ends up in the store,
    whatever the gzip writer does.  Its record is marked compressed
    exactly when the writer reported no error and its output is strictly
    shorter than the bytes read; the record then holds that output, and
    the bytes read otherwise. *)
Theorem compression_decision fuel s p fi node raw k :
  inspect fs p = Ok fi -> os.IsDir fi = false ->
  os.Open fs p = Ok node ->
  os.Read node (Z.to_nat (os.Size fi)) = (raw, k, None) ->
  ∃ f, loadFiles fs (S fuel) s p = Some (Ok (addFile s f))
       ∧ memoryFileServer.files (addFile s f) !! path.Join [path.Dir p; path.Base p]
         = Some f
       ∧ (siteFile.isGzipped f = true
          ↔ snd (gzipWrite raw) = None ∧ length (fst (gzipWrite raw)) < length raw)
       ∧ siteFile.contents f
         = (if siteFile.isGzipped f then fst (gzipWrite raw) else raw).
Proof.
  intros Hi Hd Ho Hr.
  destruct (readFile_ok p _ node raw k Ho Hr) as (f0 & Hf0 & Hname & Hdir & Hz & Hc).
  exists (setLastModified f0 (os.ModTime fi)).
  rewrite (loadFiles_file fuel s p fi Hi Hd), Hf0.
  destruct (compressContents_spec raw) as [Hiff Hgz].
  split; [done|]. split.
  - rewrite <- Hname, <- Hdir. apply (addFile_key s (setLastModified f0 _)).
  - simpl. rewrite Hz, Hc. split; [exact Hiff|].
    destruct (snd (compressContents raw)) eqn:Hok; [by apply Hgz | done].
Qed.

Lemma Read_regular sz data mt size :
  os.Read (os.RegFile sz data mt) size
  = match size, data with
    | S _, [] => (repeat x00 size, O, Some EOF)
    | _, _ => ((firstn size data ++ repeat x00 (size - length data))%list,
               Nat.min size (length data), None)
    end.
Proof.
  destruct size as [|size]; [by destruct data|].
  destruct data as [|b data]; [done|].
  unfold os.Read. f_equal. f_equal.
  destruct (Nat.le_ge_cases (S size) (length (b :: data))) as [Hle | Hge].
  - rewrite Nat.min_l by done.
    replace (S size - S size)%nat with (S size - length (b :: data))%nat by lia. done.
  - rewrite Nat.min_r by done. rewrite firstn_all.
    by rewrite (firstn_all2 (n := S size)) by done.
Qed.


Lemma newFileServer_inv fuel name root index fourOhFour forceHTTPS addrHeader s :
  newFileServer fs fuel name root index fourOhFour forceHTTPS addrHeader = Some (Ok s) ->
  ∃ s0 s',
    memoryFileServer.index s0 = index ∧ memoryFileServer.files s0 = ∅
    ∧ loadFiles fs fuel s0 root = Some (Ok s')
    ∧ memoryFileServer.files s = memoryFileServer.files s'
    ∧ memoryFileServer.root s = root ∧ memoryFileServer.index s = index
    ∧ memoryFileServer.name s = name ∧ memoryFileServer.forceHTTPS s = forceHTTPS
    ∧ memoryFileServer.error404 s
      = memoryFileServer.files s' !! path.Join [root; fourOhFour].
Proof.
  unfold newFileServer.
  destruct (loadFiles fs fuel _ root) as [[s'|]|] eqn:Hl; try done.
  intros [= <-]. eexists _, s'. split; [|split; [|split; [exact Hl|]]]; try done.
  apply loadFiles_config in Hl. rewrite Hl. done.
Qed.

(** X11.  On every file system, startup never fails with the
    directory-symlink error of [loadFiles]: the test that guards it is
    made on what [Lstat] reports for the link itself. *)
Lemma newFileServer_errno fuel name root index fourOhFour forceHTTPS addrHeader msg :
  newFileServer fs fuel name root index fourOhFour forceHTTPS addrHeader
  ≠ Some (Err (Errorf msg)).
Proof.
  unfold newFileServer.
  destruct (loadFiles fs fuel _ root) as [[s'|e]|] eqn:Hl; try done.
  intros [= ->]. by eapply loadFiles_errno.
Qed.

End Startup.

(** ** Index entries *)

Section IndexEntries.

Context `{RT : Runtime} (fs : os.filesystem).

Hypothesis Hwf : os.wf (os.fsroot fs) = true.

Lemma loadFiles_nonempty fuel s p s' :
  loadFiles fs fuel s p = Some (Ok s') -> p ≠ "".
Proof. intros Hl ->. by destruct fuel. Qed.

Lemma indexRecord_facts d index f :
  indexRecord fs d index = Some f ->
  d ≠ "" ∧ path.validName index = true
  ∧ siteFile.name f = index ∧ siteFile.dir f = path.Clean d.
Proof.
  intros (fi & names & fi' & f0 & Hi & _ & Hrd & Hin & _ & _ & Hread & ->)%indexRecord_inv.
  pose proof (inspect_nonempty fs d fi Hi) as Hd.
  destruct (ReadDir_names fs d names Hwf Hrd) as [Hv _].
  rewrite List.Forall_forall in Hv. pose proof (Hv index Hin) as Hvi.
  split; [done|]. split; [done|].
  rewrite Join_child in Hread by done.
  destruct (record_keys fs _ _ _ _ f0 (os.ModTime fi') (scan_normal d) Hvi Hread)
    as (Hname & Hdir & _).
  by rewrite Clean_nonempty.
Qed.

(** The store of a started server holds the index entry of every
    directory that the traversal entered, under the directory's cleaned
    path and under the entry's own path. *)
Lemma started_index_keys fuel name root index fourOhFour forceHTTPS addrHeader s d f :
  newFileServer fs fuel name root index fourOhFour forceHTTPS addrHeader = Some (Ok s) ->
  descends fs root d -> indexRecord fs d index = Some f ->
  memoryFileServer.files s !! path.Clean d = Some f
  ∧ memoryFileServer.files s !! path.Join [d; index] = Some f.
Proof.
  intros (s0 & s' & Hi0 & _ & Hload & Hfiles & _)%newFileServer_inv Hdesc Hidx.
  rewrite Hfiles. rewrite <- Hi0 in Hidx |- *.
  by apply (load_index_below fs Hwf fuel s0 s' root d f).
Qed.

(** C10, as the code has it.  With an empty fallback path, the record
    looked up at startup is the one stored under the cleaned root, that
    is, the index entry of the root directory when there is one; every
    GET (and HEAD) of a path that does not resolve and that passes the
    HTTPS gate is then answered with status 404, that record's headers
    (Content-Length, Content-Type, Last-Modified and, for a compressed
    record, Content-Encoding) and, for GET, its body, not with the
    generic reply. *)
Theorem empty_fallback_is_root_index
    fuel name root index forceHTTPS addrHeader s f :
  newFileServer fs fuel name root index "" forceHTTPS addrHeader = Some (Ok s) ->
  indexRecord fs root index = Some f ->
  path.Join [root; ""] = siteFile.dir f
  ∧ siteFile.name f = index
  ∧ memoryFileServer.files s !! siteFile.dir f = Some f
  ∧ memoryFileServer.error404 s = Some f
  ∧ ∀ r, getOrHead r -> shouldRedirectToHTTPS s r = false ->
         resolveFile s (http.URL_Path r) = None ->
         let w := ServeHTTP s http.NewRecorder r in
         w ≠ genericNotFound
         ∧ http.Code w = 404%Z ∧ http.Sent w = assetHeaders f
         ∧ http.RespBody w
           = (if String.eqb (http.Method r) "HEAD" then [] else siteFile.contents f)
         ∧ carries w f.
Proof.
  intros Hnew Hidx.
  destruct (indexRecord_facts root index f Hidx) as (Hroot & Hvi & Hname & Hdir).
  destruct (started_index_keys _ _ _ _ _ _ _ _ _ _ Hnew (descends_here fs root) Hidx)
    as [Halias _].
  apply newFileServer_inv in Hnew
    as (s0 & s' & _ & _ & _ & Hfiles & _ & _ & _ & _ & H404).
  rewrite <- Hfiles in H404.
  rewrite Join_empty in * by done. rewrite Hdir.
  split; [done|]. split; [done|]. split; [done|].
  rewrite Halias in H404. split; [done|].
  intros r Hm Hg Hres. cbv zeta.
  rewrite ServeHTTP_serveFile, serveFile_absent by done.
  pose proof (serve404_fresh s r) as Hs. cbv zeta in Hs. rewrite H404 in Hs.
  destruct Hs as (Hcode & Hsent & Hbody).
  split; [|split; [exact Hcode|split; [exact Hsent|split; [exact Hbody|]]]].
  - intros Heq. rewrite Heq in Hsent.
    apply (f_equal (fun h => h !! "X-Content-Type-Options")) in Hsent.
    destruct (assetHeaders_lookup f) as (_ & _ & _ & _ & Hother).
    rewrite Hother in Hsent by done. done.
  - by apply carries_of_sent.
Qed.

(** C5, as the code has it.  Let [d] be a directory that the traversal
    entered and that holds an index entry with record [f], and [p] a
    request path whose root-joined form is [d].  A GET of [p] with no
    [If-Modified-Since] value is answered with 200, the headers of [f]
    and its content, unless the last element of [p] is itself the index
    name, in which case it is redirected (301) to the directory of [p].
    A GET of [p] extended with the index name is always redirected (301)
    to the cleaned [p], never answered with 200. *)
Theorem index_entry_serving
    fuel name root index fourOhFour forceHTTPS addrHeader s d f p :
  newFileServer fs fuel name root index fourOhFour forceHTTPS addrHeader = Some (Ok s) ->
  descends fs root d -> indexRecord fs d index = Some f ->
  path.Join [root; p] = path.Clean d ->
  (∀ r, http.URL_Path r = p -> http.Method r = "GET" ->
        shouldRedirectToHTTPS s r = false ->
        let w := ServeHTTP s http.NewRecorder r in
        if String.eqb (path.Base p) index
        then w = http.Redirect http.NewRecorder r (path.Dir p) 301
             ∧ http.Code w = 301%Z
        else http.Get (http.ReqHeader r) "If-Modified-Since" = "" ->
             http.Code w = 200%Z ∧ http.Sent w = assetHeaders f
             ∧ http.RespBody w = siteFile.contents f)
  ∧ (∀ r, http.URL_Path r = p +:+ String "/" index -> http.Method r = "GET" ->
          shouldRedirectToHTTPS s r = false ->
          let w := ServeHTTP s http.NewRecorder r in
          w = http.Redirect http.NewRecorder r (path.Clean (p +:+ "/")) 301
          ∧ http.Code w = 301%Z ∧ http.Code w ≠ 200%Z).
Proof.
  intros Hnew Hdesc Hidx Hp.
  destruct (indexRecord_facts d index f Hidx) as (Hd & Hvi & _ & _).
  destruct (started_index_keys _ _ _ _ _ _ _ _ _ _ Hnew Hdesc Hidx) as [Halias Hkey].
  apply newFileServer_inv in Hnew
    as (s0 & s' & _ & _ & Hload & _ & Hroot & Hindex & _).
  pose proof (loadFiles_nonempty _ _ _ _ Hload) as Hne.
  split.
  - intros r Hpath Hm Hg. cbv zeta.
    assert (Hres : resolveFile s (http.URL_Path r) = Some f).
    { unfold resolveFile. by rewrite Hroot, Hpath, Hp. }
    rewrite ServeHTTP_serveFile by (done || by left).
    destruct (String.eqb (path.Base p) index) eqn:Hb.
    + apply String.eqb_eq in Hb.
      rewrite (serveFile_index s r f Hres) by (by rewrite Hpath, Hindex).
      rewrite Hpath. split; [done|]. by apply Redirect_code.
    + apply String.eqb_neq in Hb. intros Hv.
      pose proof (serveFile_asset s r f Hres) as Hs. cbv zeta in Hs.
      rewrite Hv in Hs. destruct Hs as (Hc & Hh & Hbody).
      { by rewrite Hpath, Hindex. }
      rewrite Hm in Hbody. done.
  - intros r Hpath Hm Hg. cbv zeta.
    assert (Hres : resolveFile s (http.URL_Path r) = Some f).
    { unfold resolveFile. rewrite Hroot, Hpath, Join_extend, Hp, Join_Clean by done.
      exact Hkey. }
    rewrite ServeHTTP_serveFile by (done || by left).
    rewrite (serveFile_index s r f Hres) by (by rewrite Hpath, Hindex, Base_child).
    rewrite Hpath, Dir_child by (by apply validName_inv in Hvi as (_ & _ & _ & Hvi)).
    split; [done|].
    rewrite Redirect_code by done. done.
Qed.

End IndexEntries.

Section StartupExamples.

#[local] Existing Instance sample.runtime.

(** C1 fails on the code.  [/site/shortcut] is a symbolic link to the
    directory [/site/real]: [Lstat] reports a symbolic link, [Stat] a
    directory.  Startup succeeds, the file below the link is in the
    store under the link's path, and it is served. *)
Theorem symlinked_directory_is_loaded :
  let fs := sample.linked in
  let s := sample.server fs "" false in
  Z.land (os.Mode (os.info (os.SymLink "real" sample.T0))) os.ModeSymlink
  = os.ModeSymlink
  ∧ os.Lstat fs "/site/shortcut" = Ok (os.info (os.SymLink "real" sample.T0))
  ∧ os.IsDir (os.info (os.SymLink "real" sample.T0)) = false
  ∧ (∃ fi, os.Stat fs "/site/shortcut" = Ok fi ∧ os.IsDir fi = true)
  ∧ sample.start fs "" false = Some (Ok s)
  ∧ siteFile.contents <$> memoryFileServer.files s !! "/site/shortcut/a.txt"
    = Some (sample.bytes "inside")
  ∧ sample.answer fs "" false (sample.request "GET" "/shortcut/a.txt" [])
    = Some (200%Z,
            [("Content-Length", ["6"]);
             ("Content-Type", ["text/plain; charset=utf-8"]);
             ("Last-Modified", ["Wed, 21 Oct 2015 07:28:00 GMT"])],
            "inside").
Proof.
  cbv zeta. evaluated.
Qed.



(** [/site/hello.txt] ("hi") is kept as it is, [/site/zeros.txt] (forty
    times "0") is kept compressed, in four bytes. *)
Lemma compression_decision_witness :
  (∃ f, loadFiles sample.site 1 sample.noServer "/site/hello.txt"
        = Some (Ok (addFile sample.noServer f))
        ∧ siteFile.isGzipped f = false
        ∧ siteFile.contents f = sample.bytes "hi")
  ∧ (∃ f, loadFiles sample.site 1 sample.noServer "/site/zeros.txt"
          = Some (Ok (addFile sample.noServer f))
          ∧ siteFile.isGzipped f = true
          ∧ length (siteFile.contents f) = 4%nat).
Proof.
  split.
  - pose (node := sample.file "hi" sample.T0).
    assert (Hi : inspect sample.site "/site/hello.txt" = Ok (os.info node))
      by (vm_compute; reflexivity).
    assert (Ho : os.Open sample.site "/site/hello.txt" = Ok node)
      by (vm_compute; reflexivity).
    assert (Hr : os.Read node (Z.to_nat (os.Size (os.info node)))
                 = (sample.bytes "hi", 2%nat, None))
      by (vm_compute; reflexivity).
    destruct (compression_decision sample.site 0 sample.noServer "/site/hello.txt"
                _ _ _ _ Hi eq_refl Ho Hr) as (f & Hload & _ & Hz & Hc).
    exists f. split; [exact Hload|].
    destruct (siteFile.isGzipped f).
    + destruct Hz as [Hz _]. destruct (Hz eq_refl) as [_ Hlt].
      vm_compute in Hlt. lia.
    + split; [reflexivity | exact Hc].
  - pose (node := sample.file "0000000000000000000000000000000000000000" sample.T0).
    assert (Hi : inspect sample.site "/site/zeros.txt" = Ok (os.info node))
      by (vm_compute; reflexivity).
    assert (Ho : os.Open sample.site "/site/zeros.txt" = Ok node)
      by (vm_compute; reflexivity).
    assert (Hr : os.Read node (Z.to_nat (os.Size (os.info node)))
                 = (sample.bytes "0000000000000000000000000000000000000000",
                    40%nat, None))
      by (vm_compute; reflexivity).
    destruct (compression_decision sample.site 0 sample.noServer "/site/zeros.txt"
                _ _ _ _ Hi eq_refl Ho Hr) as (f & Hload & _ & Hz & Hc).
    exists f. split; [exact Hload|].
    assert (Hgz : siteFile.isGzipped f = true).
    { apply Hz. split; [vm_compute; reflexivity | vm_compute; lia]. }
    split; [exact Hgz|]. rewrite Hc, Hgz. vm_compute. reflexivity.
Defined.

(** C8 fails on the code where no fallback path is configured and the
    root has an index file: a GET of a path that does not resolve is
    answered with the index page under status 404, not with the generic
    reply. *)
Theorem empty_fallback_serves_root_index :
  let s := sample.server sample.site "" false in
  let r := sample.request "GET" "/nope" [] in
  sample.start sample.site "" false = Some (Ok s)
  ∧ memoryFileServer.error404Name s = ""
  ∧ resolveFile s (http.URL_Path r) = None
  ∧ ServeHTTP s http.NewRecorder r ≠ genericNotFound
  ∧ sample.answer sample.site "" false r
    = Some (404%Z,
            [("Content-Length", ["13"]);
             ("Content-Type", ["text/html; charset=utf-8"]);
             ("Last-Modified", ["Wed, 21 Oct 2015 07:28:00 GMT"])],
            "<h1>home</h1>").
Proof.
  cbv zeta. evaluated.
Qed.

Lemma empty_fallback_is_root_index_witness :
  let s := sample.server sample.site "" false in
  memoryFileServer.error404 s = memoryFileServer.files s !! "/site"
  ∧ http.Code (ServeHTTP s http.NewRecorder (sample.request "GET" "/nope" [])) = 404%Z.
Proof.
  cbv zeta.
  edestruct (empty_fallback_is_root_index sample.site eq_refl 8 "" "/site" "index.html"
               false "" (sample.server sample.site "" false))
    as (Hjoin & _ & Halias & H404 & Hserve).
  - vm_compute. reflexivity.
  - vm_compute. reflexivity.
  - split.
    + rewrite H404, <- Halias, <- Hjoin. reflexivity.
    + apply (Hserve (sample.request "GET" "/nope" [])).
      * left. reflexivity.
      * vm_compute. reflexivity.
      * vm_compute. reflexivity.
Defined.

(** C10 as stated fails behind the HTTPS gate: with enforcement on, an
    empty fallback path and [index.html] under the root, the fallback
    record is the root's index entry, yet a GET of a path that does not
    resolve, forwarded from plain http, is redirected (301), not
    answered with 404. *)
Lemma unresolved_get_behind_gate_is_redirected :
  let s := sample.server sample.site "" true in
  let r := sample.request "GET" "/nope" [("X-Forwarded-Proto", "http")] in
  sample.start sample.site "" true = Some (Ok s)
  ∧ is_Some (indexRecord sample.site "/site" "index.html")
  ∧ memoryFileServer.error404 s = indexRecord sample.site "/site" "index.html"
  ∧ resolveFile s (http.URL_Path r) = None
  ∧ http.Code (ServeHTTP s http.NewRecorder r) = 301%Z
  ∧ http.Code (ServeHTTP s http.NewRecorder r) ≠ 404%Z
  ∧ http.Get (http.Sent (ServeHTTP s http.NewRecorder r)) "Location"
    = "https://example.com/nope".
Proof.
  cbv zeta. evaluated.
Qed.

Lemma site_descends_docs : descends sample.site "/site" "/site/docs".
Proof.
  eapply (descends_into sample.site "/site" _ _ "docs").
  - vm_compute. reflexivity.
  - vm_compute. reflexivity.
  - vm_compute. reflexivity.
  - left. reflexivity.
  - apply descends_here.
Qed.

(** [/site/docs] holds [index.html]: [GET /docs] is answered with it,
    [GET /docs/index.html] is redirected to [/docs]. *)
Lemma index_entry_serving_witness :
  let s := sample.server sample.site "" false in
  (let w := ServeHTTP s http.NewRecorder (sample.request "GET" "/docs" []) in
   http.Code w = 200%Z ∧ http.RespBody w = sample.bytes "<p>docs</p>")
  ∧ (let w := ServeHTTP s http.NewRecorder (sample.request "GET" "/docs/index.html" []) in
     http.Code w = 301%Z ∧ http.Get (http.Sent w) "Location" = "/docs").
Proof.
  cbv zeta.
  pose (f := default (setLastModified
                        {| siteFile.contents := []; siteFile.mimeType := "";
                           siteFile.isGzipped := false; siteFile.name := "";
                           siteFile.dir := ""; siteFile.lastModified := 0%Z |} 0%Z)
                     (indexRecord sample.site "/site/docs" "index.html")).
  destruct (index_entry_serving sample.site eq_refl 8 "" "/site" "index.html" "" false ""
              (sample.server sample.site "" false) "/site/docs" f "/docs")
    as (Hdir & Hentry).
  - vm_compute. reflexivity.
  - exact site_descends_docs.
  - vm_compute. reflexivity.
  - vm_compute. reflexivity.
  - split.
    + specialize (Hdir (sample.request "GET" "/docs" []) eq_refl eq_refl eq_refl).
      cbv zeta in Hdir. destruct Hdir as (Hc & _ & Hb); [reflexivity|].
      split; [exact Hc|]. rewrite Hb. vm_compute. reflexivity.
    + specialize (Hentry (sample.request "GET" "/docs/index.html" []) eq_refl eq_refl eq_refl).
      cbv zeta in Hentry. destruct Hentry as (Hw & Hc & _).
      split; [exact Hc|]. rewrite Hw. vm_compute. reflexivity.
Defined.

(** C5 as stated fails for a directory whose own name is the index
    name.  [/site/index.html] is a directory holding [index.html]; a GET
    of the bare directory path [/index.html] resolves to that entry and
    is answered with 301, not 200. *)
Lemma directory_named_like_index_is_redirected :
  let fs := sample.nested in
  let s := sample.server fs "" false in
  let w := ServeHTTP s http.NewRecorder (sample.request "GET" "/index.html" []) in
  sample.start fs "" false = Some (Ok s)
  ∧ (∃ fi, os.Stat fs "/site/index.html" = Ok fi ∧ os.IsDir fi = true)
  ∧ os.ReadDir fs "/site/index.html" = Ok ["index.html"]
  ∧ siteFile.contents <$> indexRecord fs "/site/index.html" "index.html"
    = Some (sample.bytes "<p>inner</p>")
  ∧ resolveFile s "/index.html" = indexRecord fs "/site/index.html" "index.html"
  ∧ http.Code w = 301%Z ∧ http.Code w ≠ 200%Z
  ∧ http.Get (http.Sent w) "Location" = "/".
Proof.
  cbv zeta. evaluated.
Qed.

End StartupExamples.

(** ** Method dispatch *)

Section Dispatch.

Context `{RT : Runtime}.

Implicit Types (s : memoryFileServer.t) (r : http.Request).

(** X1.  An OPTIONS request that passes the HTTPS gate is answered with 204,
    the one header [Allow: OPTIONS, GET, HEAD] and no body, whatever the
    path and whatever the store holds. *)
Theorem options_reply s r :
  http.Method r = "OPTIONS" -> shouldRedirectToHTTPS s r = false ->
  let w := ServeHTTP s http.NewRecorder r in
  http.Code w = 204%Z
  ∧ http.Sent w = {[ "Allow" := ["OPTIONS, GET, HEAD"] ]}
  ∧ http.RespBody w = [].
Proof.
  intros Hm Hg. cbv zeta. unfold ServeHTTP. rewrite Hg, Hm. done.
Qed.

(** X2.  A request with any other method than OPTIONS, GET and HEAD that
    passes the HTTPS gate is answered with 405, no header and no body;
    the store is not consulted. *)
Theorem other_methods_not_allowed s r :
  http.Method r ≠ "OPTIONS" -> http.Method r ≠ "GET" -> http.Method r ≠ "HEAD" ->
  shouldRedirectToHTTPS s r = false ->
  let w := ServeHTTP s http.NewRecorder r in
  http.Code w = 405%Z ∧ http.Sent w = ∅ ∧ http.RespBody w = [].
Proof.
  intros Ho Hge Hh Hg. cbv zeta. unfold ServeHTTP.
  unfold http.MethodOptions, http.MethodGet, http.MethodHead.
  rewrite Hg, (eqb_false_of_ne _ _ Ho), (eqb_false_of_ne _ _ Hge),
    (eqb_false_of_ne _ _ Hh). done.
Qed.

(** X3.  The handler answers with one of seven status codes and no other. *)
Theorem status_codes s r :
  In (http.Code (ServeHTTP s http.NewRecorder r))
     [200; 204; 301; 304; 400; 404; 405]%Z.
Proof.
  unfold ServeHTTP.
  destruct (shouldRedirectToHTTPS s r).
  { unfold redirectToHTTPS. rewrite Redirect_code by done. simpl. tauto. }
  destruct (String.eqb (http.Method r) http.MethodOptions).
  { simpl. tauto. }
  destruct (_ || _); [|simpl; tauto].
  unfold serveFile.
  destruct (resolveFile s (http.URL_Path r)) as [f|].
  - destruct (String.eqb _ (memoryFileServer.index s)).
    { unfold redirectIndex. rewrite Redirect_code by done. simpl. tauto. }
    pose proof (serve_full f r) as (Hc & _).
    destruct (negb (String.eqb (http.Get (http.ReqHeader r) "If-Modified-Since") "")).
    + destruct (ParseHTTPTime _) as [t|]; [|simpl; tauto].
      destruct (negb (time.Before t (siteFile.lastModified f))).
      * unfold http.Code, http.WriteHeader. rewrite SetHeaders_wrote. simpl. tauto.
      * cbv zeta in Hc. rewrite Hc. simpl. tauto.
    + cbv zeta in Hc. rewrite Hc. simpl. tauto.
  - rewrite serve404_code. simpl. tauto.
Qed.

(** X4.  Past the HTTPS gate the response is determined by the method, the
    path and the value of [If-Modified-Since]: the request URI with its
    query, the host, the peer address and all other headers have no
    effect on it. *)
Theorem response_depends_on s r r' :
  shouldRedirectToHTTPS s r = false -> shouldRedirectToHTTPS s r' = false ->
  http.Method r = http.Method r' -> http.URL_Path r = http.URL_Path r' ->
  http.Get (http.ReqHeader r) "If-Modified-Since"
  = http.Get (http.ReqHeader r') "If-Modified-Since" ->
  ServeHTTP s http.NewRecorder r = ServeHTTP s http.NewRecorder r'.
Proof.
  intros Hg Hg' Hm Hp Hv. unfold ServeHTTP. rewrite Hg, Hg', Hm.
  destruct (String.eqb (http.Method r') http.MethodOptions); [done|].
  destruct (_ || _); [|done].
  unfold serveFile, serve404, redirectIndex, http.Redirect, http.NotFound.
  by rewrite Hp, Hv, Hm.
Qed.

(** X5.  A GET that passes the gate and is answered with 200 carries a
    resolved asset: the body is the stored content of the record that
    the path resolves to, [Content-Length] is the length of that body,
    and [Content-Encoding: gzip] is present exactly when the record is
    stored compressed. *)
Theorem ok_carries_the_asset s r :
  http.Method r = "GET" -> shouldRedirectToHTTPS s r = false ->
  let w := ServeHTTP s http.NewRecorder r in
  http.Code w = 200%Z ->
  ∃ f, resolveFile s (http.URL_Path r) = Some f
       ∧ http.RespBody w = siteFile.contents f
       ∧ http.Get (http.Sent w) "Content-Length" = Sprint (length (http.RespBody w))
       ∧ (http.Sent w !! "Content-Encoding" = Some ["gzip"]
          ↔ siteFile.isGzipped f = true).
Proof.
  intros Hm Hg. cbv zeta.
  rewrite ServeHTTP_serveFile by (done || by left).
  destruct (resolveFile s (http.URL_Path r)) as [f|] eqn:Hres.
  2:{ rewrite serveFile_absent, serve404_code by done. done. }
  destruct (String.eqb (path.Base (http.URL_Path r)) (memoryFileServer.index s)) eqn:Hb.
  { apply String.eqb_eq in Hb. rewrite (serveFile_index s r f Hres Hb).
    rewrite Redirect_code by done. done. }
  apply String.eqb_neq in Hb.
  pose proof (serveFile_asset s r f Hres Hb) as Hs. cbv zeta in Hs.
  assert (Hserved : served f r (serveFile s http.NewRecorder r) ->
            ∃ f0, Some f = Some f0
              ∧ http.RespBody (serveFile s http.NewRecorder r) = siteFile.contents f0
              ∧ http.Get (http.Sent (serveFile s http.NewRecorder r)) "Content-Length"
                = Sprint (length (http.RespBody (serveFile s http.NewRecorder r)))
              ∧ (http.Sent (serveFile s http.NewRecorder r) !! "Content-Encoding"
                 = Some ["gzip"] ↔ siteFile.isGzipped f0 = true)).
  { intros (_ & Hsent & Hbody). rewrite Hm in Hbody. simpl in Hbody.
    exists f. rewrite Hsent, Hbody.
    destruct (assetHeaders_lookup f) as (Hl & _ & _ & He & _).
    split; [done|]. split; [done|]. split.
    - unfold http.Get. by rewrite Hl.
    - rewrite He. destruct (siteFile.isGzipped f); split; done. }
  destruct (String.eqb (http.Get (http.ReqHeader r) "If-Modified-Since") "").
  { intros _. by apply Hserved. }
  destruct (ParseHTTPTime _) as [t|].
  - destruct (time.Before t (siteFile.lastModified f)).
    + intros _. by apply Hserved.
    + destruct Hs as (Hc & _). by rewrite Hc.
  - destruct Hs as (Hc & _). by rewrite Hc.
Qed.

(** X6.  The time in [Last-Modified] is compared as it was read from the file
    system.  When the value that the server itself sends in
    [Last-Modified] parses to a time strictly before the record's (a
    modification time with a fraction of a second), a request that
    returns that value in [If-Modified-Since] is served in full again;
    when it parses to the record's very time, the answer is 304. *)
Theorem echoed_last_modified s r f t :
  getOrHead r -> shouldRedirectToHTTPS s r = false ->
  resolveFile s (http.URL_Path r) = Some f ->
  path.Base (http.URL_Path r) ≠ memoryFileServer.index s ->
  http.Get (http.ReqHeader r) "If-Modified-Since"
  = FormatHTTPTime (siteFile.lastModified f) ->
  FormatHTTPTime (siteFile.lastModified f) ≠ "" ->
  ParseHTTPTime (FormatHTTPTime (siteFile.lastModified f)) = Some t ->
  let w := ServeHTTP s http.NewRecorder r in
  ((t < siteFile.lastModified f)%Z -> served f r w)
  ∧ (t = siteFile.lastModified f -> http.Code w = 304%Z ∧ http.RespBody w = []).
Proof.
  intros Hm Hg Hres Hb Hv Hne Hp. cbv zeta.
  rewrite ServeHTTP_serveFile by done.
  pose proof (serveFile_asset s r f Hres Hb) as Hs. cbv zeta in Hs.
  rewrite Hv, (eqb_false_of_ne _ _ Hne), Hp in Hs. unfold time.Before in Hs.
  split.
  - intros Hlt. apply Z.ltb_lt in Hlt. by rewrite Hlt in Hs.
  - intros ->. rewrite Z.ltb_irrefl in Hs. destruct Hs as (Hc & _ & Hbody). done.
Qed.

End Dispatch.

(** ** The store *)

Section Store.

Context `{RT : Runtime}.

(** X7.  [addFile] and lookup: the record is found under the join of its
    directory and name and, when its name is the index name, under its
    directory as well, replacing what was there; every other key keeps
    what it had. *)
Theorem addFile_lookup (s : memoryFileServer.t) (f : siteFile.t) (k : string) :
  memoryFileServer.files (addFile s f) !! k
  = if decide (k = path.Join [siteFile.dir f; siteFile.name f]
               ∨ (siteFile.name f = memoryFileServer.index s ∧ k = siteFile.dir f))
    then Some f
    else memoryFileServer.files s !! k.
Proof.
  case_decide as Hk.
  - destruct Hk as [-> | [Hn ->]]; [apply addFile_key | by apply addFile_alias].
  - apply addFile_other.
    + intros ->. apply Hk. by left.
    + intros Hn ->. apply Hk. by right.
Qed.

Lemma Read_length n size buf k :
  os.Read n size = (buf, k, None) -> length buf = size.
Proof.
  destruct n as [sz data mt| |]; [|done..]. rewrite Read_regular.
  destruct size as [|size].
  - intros [= <- _]. by destruct data.
  - destruct data as [|b data]; [done|]. intros Heq.
    apply (f_equal (fun x => length (fst (fst x)))) in Heq. simpl fst in Heq.
    rewrite <- Heq. cbn [length].
    rewrite length_app, length_take, repeat_length. lia.
Qed.

(** X8.  A record never holds more bytes than the size that was reported for
    the file, and strictly fewer when it is stored compressed: an empty
    file is never stored compressed. *)
Theorem stored_never_longer (fs : os.filesystem) p size f :
  readFile fs p size = Ok f ->
  length (siteFile.contents f) <= size
  ∧ (siteFile.isGzipped f = true -> length (siteFile.contents f) < size)
  ∧ (siteFile.isGzipped f = false -> length (siteFile.contents f) = size).
Proof.
  unfold readFile. destruct (os.Open fs p) as [n|]; [|done].
  destruct (os.Read n size) as [[buf k] [e|]] eqn:Hr; [done|].
  apply Read_length in Hr.
  destruct (compressContents_spec buf) as [Hiff Hgz].
  destruct (compressContents buf) as [gz ok]. simpl in Hiff, Hgz.
  intros [= <-]. simpl. destruct ok.
  - destruct (proj1 Hiff eq_refl) as [_ Hlt]. rewrite (Hgz eq_refl).
    split; [lia|]. split; [intros _; lia | done].
  - split; [lia|]. split; [done | by intros _].
Qed.

End Store.

Section DispatchExamples.

#[local] Existing Instance sample.runtime.

(** [OPTIONS] of a path that does not resolve. *)
Lemma options_reply_witness :
  let w := ServeHTTP (sample.server sample.site "" false) http.NewRecorder
             (sample.request "OPTIONS" "/nope" []) in
  http.Code w = 204%Z ∧ http.Get (http.Sent w) "Allow" = "OPTIONS, GET, HEAD".
Proof.
  cbv zeta.
  destruct (options_reply (sample.server sample.site "" false)
              (sample.request "OPTIONS" "/nope" []) eq_refl eq_refl) as (Hc & Hs & _).
  split; [exact Hc|]. rewrite Hs. reflexivity.
Defined.

(** [DELETE] of a path that resolves. *)
Lemma other_methods_not_allowed_witness :
  http.Code (ServeHTTP (sample.server sample.site "" false) http.NewRecorder
               (sample.request "DELETE" "/hello.txt" [])) = 405%Z.
Proof.
  destruct (other_methods_not_allowed (sample.server sample.site "" false)
              (sample.request "DELETE" "/hello.txt" [])) as (Hc & _).
  - vm_compute. discriminate.
  - vm_compute. discriminate.
  - vm_compute. discriminate.
  - reflexivity.
  - exact Hc.
Defined.

(** A query and a cookie change nothing. *)
Lemma response_depends_on_witness :
  let s := sample.server sample.site "" false in
  ServeHTTP s http.NewRecorder (sample.request "GET" "/hello.txt" [])
  = ServeHTTP s http.NewRecorder
      {| http.Method := "GET"; http.URL_Path := "/hello.txt";
         http.RequestURI := "/hello.txt?v=2"; http.Host := "other.example";
         http.ReqHeader := {[ "Cookie" := ["a=b"] ]};
         http.RemoteAddr := "198.51.100.7:80" |}.
Proof.
  cbv zeta. apply response_depends_on; vm_compute; reflexivity.
Defined.

(** [GET /zeros.txt]: four bytes of compressed content, announced as
    such. *)
Lemma ok_carries_the_asset_witness :
  let w := ServeHTTP (sample.server sample.site "" false) http.NewRecorder
             (sample.request "GET" "/zeros.txt" []) in
  http.Get (http.Sent w) "Content-Length" = "4"
  ∧ http.Sent w !! "Content-Encoding" = Some ["gzip"].
Proof.
  cbv zeta.
  destruct (ok_carries_the_asset (sample.server sample.site "" false)
              (sample.request "GET" "/zeros.txt" []) eq_refl eq_refl)
    as (f & Hres & Hbody & Hlen & Henc).
  - vm_compute. reflexivity.
  - split.
    + rewrite Hlen. vm_compute. reflexivity.
    + apply Henc.
      assert (Hf : resolveFile (sample.server sample.site "" false) "/zeros.txt"
                   = Some (default sample.noFile
                             (resolveFile (sample.server sample.site "" false)
                                "/zeros.txt")))
        by (vm_compute; reflexivity).
      change (http.URL_Path (sample.request "GET" "/zeros.txt" []))
        with "/zeros.txt" in Hres.
      rewrite Hf in Hres. injection Hres as <-. vm_compute. reflexivity.
Defined.

(** [/site/hello.txt] was modified at [T1], half a second after the time
    that [Last-Modified] shows; the request that returns that header is
    answered with 200 and the body. *)
Lemma echoed_last_modified_witness :
  let s := sample.server sample.subsecond "" false in
  let r := sample.request "GET" "/hello.txt"
             [("If-Modified-Since", "Wed, 21 Oct 2015 07:28:00 GMT")] in
  let w := ServeHTTP s http.NewRecorder r in
  http.Get (http.Sent w) "Last-Modified" = "Wed, 21 Oct 2015 07:28:00 GMT"
  ∧ http.Code w = 200%Z ∧ http.RespBody w = sample.bytes "hi".
Proof.
  cbv zeta.
  pose (f := default sample.noFile
               (resolveFile (sample.server sample.subsecond "" false) "/hello.txt")).
  destruct (echoed_last_modified (sample.server sample.subsecond "" false)
              (sample.request "GET" "/hello.txt"
                 [("If-Modified-Since", "Wed, 21 Oct 2015 07:28:00 GMT")])
              f sample.T0) as (Hlt & _).
  - left. reflexivity.
  - reflexivity.
  - vm_compute. reflexivity.
  - vm_compute. discriminate.
  - vm_compute. reflexivity.
  - vm_compute. discriminate.
  - vm_compute. reflexivity.
  - destruct Hlt as (Hc & Hs & Hb).
    + vm_compute. reflexivity.
    + split; [|split; [exact Hc|]].
      * rewrite Hs. vm_compute. reflexivity.
      * rewrite Hb. vm_compute. reflexivity.
Defined.

(** The record of [/site/zeros.txt], read with the reported size 40. *)
Lemma stored_never_longer_witness :
  ∃ f, readFile sample.site "/site/zeros.txt" 40 = Ok f
       ∧ length (siteFile.contents f) < 40.
Proof.
  pose (f := match readFile sample.site "/site/zeros.txt" 40 with
             | Ok f => f
             | Err _ => sample.noFile
             end).
  assert (Hf : readFile sample.site "/site/zeros.txt" 40 = Ok f)
    by (vm_compute; reflexivity).
  exists f. split; [exact Hf|].
  destruct (stored_never_longer sample.site "/site/zeros.txt" 40 f Hf) as (_ & Hlt & _).
  apply Hlt. vm_compute. reflexivity.
Defined.

End DispatchExamples.

(** ** The loader: every entry of every directory entered *)

Section Entries.

Context `{RT : Runtime} (fs : os.filesystem).

Hypothesis Hwf : os.wf (os.fsroot fs) = true.

#[local] Arguments path.Join : simpl never.
#[local] Arguments path.render : simpl never.
#[local] Arguments path.Clean : simpl never.

(** Within one directory: the loop inspects every entry, and an entry
    that is read as a file keeps the key of its own path to the end of
    the loop. *)
Lemma load_directory_entry fuel s s' p fi names n :
  loadFiles fs fuel s p = Some (Ok s') ->
  inspect fs p = Ok fi -> os.IsDir fi = true ->
  os.ReadDir fs p = Ok names -> In n names ->
  ∃ fi', inspect fs (path.Join [p; n]) = Ok fi'
    ∧ (os.IsDir fi' = false ->
       ∃ f0, readFile fs (path.Join [p; n]) (Z.to_nat (os.Size fi')) = Ok f0
         ∧ memoryFileServer.files s' !! path.Join [p; n]
           = Some (setLastModified f0 (os.ModTime fi'))).
Proof.
  intros Hload Hi Hdir Hrd Hin.
  pose proof (inspect_nonempty fs p fi Hi) as Hp.
  destruct (ReadDir_names fs p names Hwf Hrd) as [Hvalid Hnodup].
  rewrite List.Forall_forall in Hvalid.
  pose proof (scan_normal p) as Hnorm.
  set (r := path.rooted p) in *. set (out := path.scan p) in *.
  assert (Hchild : ∀ m, In m names -> path.Join [p; m] = path.render r (m :: out)).
  { intros m Hm. apply Join_child; [done | by apply Hvalid]. }
  rewrite (Hchild n Hin).
  destruct fuel as [|fuel]; [done|].
  rewrite loadFiles_unfold, Hi, Hdir, Hrd in Hload. cbn [negb] in Hload.
  destruct (in_split _ _ Hin) as (pre & post & ->).
  apply range_app in Hload as (s1 & Hpre & Hpost).
  rewrite range_cons, Hchild in Hpost by (apply in_or_app; right; by left).
  destruct fuel as [|fuel]; [done|].
  rewrite loadFiles_unfold in Hpost.
  destruct (inspect fs (path.render r (n :: out))) as [fi'|] eqn:Hi'; [|done].
  exists fi'. split; [done|]. intros Hfile.
  rewrite Hfile in Hpost. cbn [negb] in Hpost.
  destruct (readFile fs _ _) as [f0|] eqn:Hread; [|done].
  exists f0. split; [done|].
  assert (Hvn : path.validName n = true)
    by (apply Hvalid, in_or_app; right; by left).
  destruct (record_keys fs r out n _ f0 (os.ModTime fi') Hnorm Hvn Hread)
    as (Hname & Hd & Hkey).
  set (f := setLastModified f0 (os.ModTime fi')) in *.
  assert (Hs2 : memoryFileServer.files (addFile s1 f) !! path.render r (n :: out) = Some f).
  { rewrite <- Hkey. apply addFile_key. }
  apply NoDup_app in Hnodup as (_ & _ & Hnodup).
  apply NoDup_cons in Hnodup as [Hnodup _].
  rewrite <- Hs2. revert Hpost.
  generalize (addFile s1 f). intros s2.
  apply (range_invariant
           (fun a b => memoryFileServer.files b !! path.render r (n :: out)
                       = memoryFileServer.files a !! path.render r (n :: out))).
  - done.
  - intros a b c Hab Hbc. by rewrite Hbc.
  - intros a b m Hm Hbody.
    assert (Hmn : In m (pre ++ n :: post)) by (apply in_or_app; right; by right).
    assert (Hne : m ≠ n).
    { intros ->. by apply Hnodup, list_elem_of_In. }
    rewrite Hchild in Hbody by done.
    pose proof (Hvalid m Hmn) as Hvm.
    apply (loadFiles_frame fs Hwf (S fuel) a b r out m _ Hnorm Hvm Hbody).
    + intros ns Hns Heq. apply render_inj in Heq; [|by apply normal_push|done].
      apply (tail_cancel [] ns) in Heq as [_ Heq]. by apply Hne.
    + intros _ Heq. apply render_inj in Heq; [|by apply normal_push|done].
      symmetry in Heq. by apply (tail_neq [] n out) in Heq.
Qed.

Lemma load_entry_below fuel s s' p d fi names n :
  loadFiles fs fuel s p = Some (Ok s') ->
  descends fs p d ->
  inspect fs d = Ok fi -> os.IsDir fi = true ->
  os.ReadDir fs d = Ok names -> In n names ->
  ∃ fi', inspect fs (path.Join [d; n]) = Ok fi'
    ∧ (os.IsDir fi' = false ->
       ∃ f0, readFile fs (path.Join [d; n]) (Z.to_nat (os.Size fi')) = Ok f0
         ∧ memoryFileServer.files s' !! path.Join [d; n]
           = Some (setLastModified f0 (os.ModTime fi'))).
Proof.
  intros Hload Hdesc. revert fuel s s' Hload.
  induction Hdesc as [p | p fip namesp c q Hip Hdirp Hrdp Hinp Hdesc IH];
    intros fuel s s' Hload Hi Hdir Hrd Hin.
  { by eapply load_directory_entry. }
  pose proof (inspect_nonempty fs p fip Hip) as Hp.
  destruct (ReadDir_names fs p namesp Hwf Hrdp) as [Hvalid Hnodup].
  rewrite List.Forall_forall in Hvalid.
  pose proof (scan_normal p) as Hnorm.
  set (r := path.rooted p) in *. set (out := path.scan p) in *.
  assert (Hchild : ∀ m, In m namesp -> path.Join [p; m] = path.render r (m :: out)).
  { intros m Hm. apply Join_child; [done | by apply Hvalid]. }
  pose proof (Hvalid c Hinp) as Hvc.
  pose proof (normal_push _ _ c Hnorm Hvc) as Hnorm'.
  destruct (render_facts _ _ Hnorm') as (Hne & Hr & Hs).
  rewrite <- (Hchild c Hinp) in Hne, Hr, Hs.
  destruct (descends_form fs Hwf _ _ Hdesc Hne) as (ms & Hq & Hrq & Hsq).
  rewrite Hr in Hrq. rewrite Hs in Hsq.
  assert (Hvn : path.validName n = true).
  { destruct (ReadDir_names fs q names Hwf Hrd) as [Hv _].
    rewrite List.Forall_forall in Hv. by apply Hv. }
  pose proof (scan_normal q) as Hnq. rewrite Hrq, Hsq in Hnq.
  assert (HK : path.Join [q; n] = path.render r (n :: ms ++ c :: out)).
  { by rewrite Join_child, Hrq, Hsq. }
  destruct fuel as [|fuel]; [done|].
  rewrite loadFiles_unfold, Hip, Hdirp, Hrdp in Hload. cbn [negb] in Hload.
  destruct (in_split _ _ Hinp) as (pre & post & ->).
  apply range_app in Hload as (s1 & Hpre & Hpost).
  rewrite range_cons in Hpost.
  destruct (loadFiles fs fuel s1 (path.Join [p; c])) as [[s2|]|] eqn:Hc; try done.
  destruct (IH fuel s1 s2 Hc Hi Hdir Hrd Hin) as (fi' & Hi' & Hfile).
  exists fi'. split; [done|]. intros Hnd.
  destruct (Hfile Hnd) as (f0 & Hread & Hkey).
  exists f0. split; [done|]. rewrite <- Hkey.
  apply NoDup_app in Hnodup as (_ & _ & Hnodup).
  apply NoDup_cons in Hnodup as [Hnodup _].
  revert Hpost.
  apply (range_invariant
           (fun a b => memoryFileServer.files b !! path.Join [q; n]
                       = memoryFileServer.files a !! path.Join [q; n])).
  - done.
  - intros a b e Hab Hbe. by rewrite Hbe.
  - intros a b m Hm Hbody.
    assert (Hmn : In m (pre ++ c :: post)) by (apply in_or_app; right; by right).
    assert (Hne' : c ≠ m).
    { intros ->. by apply Hnodup, list_elem_of_In. }
    rewrite Hchild in Hbody by done.
    pose proof (Hvalid m Hmn) as Hvm.
    rewrite HK.
    assert (Hni : path.normal r (n :: ms ++ c :: out) = true)
      by (by apply normal_push).
    apply (loadFiles_frame fs Hwf fuel a b r out m _ Hnorm Hvm Hbody).
    + intros ns Hns Heq. apply render_inj in Heq; [|done..].
      apply (tail_cancel (n :: ms) ns) in Heq as [_ Heq]. by apply Hne'.
    + intros _ Heq. apply render_inj in Heq; [|done..].
      symmetry in Heq. by apply (tail_neq (n :: ms)) in Heq.
Qed.

(** X9.  Startup succeeds only if every entry of every directory that the
    traversal enters could be inspected, and every such entry that is
    not a directory could be read; the store of the started server then
    holds each of these files under its own path, with the modification
    time that was reported for it. *)
Theorem every_file_is_stored
    fuel name root index fourOhFour forceHTTPS addrHeader s d fi names n :
  newFileServer fs fuel name root index fourOhFour forceHTTPS addrHeader = Some (Ok s) ->
  descends fs root d ->
  inspect fs d = Ok fi -> os.IsDir fi = true ->
  os.ReadDir fs d = Ok names -> In n names ->
  ∃ fi', inspect fs (path.Join [d; n]) = Ok fi'
    ∧ (os.IsDir fi' = false ->
       ∃ f, readFile fs (path.Join [d; n]) (Z.to_nat (os.Size fi')) = Ok f
         ∧ memoryFileServer.files s !! path.Join [d; n]
           = Some (setLastModified f (os.ModTime fi'))).
Proof.
  intros (s0 & s' & _ & _ & Hload & Hfiles & _)%newFileServer_inv Hdesc Hi Hdir Hrd Hin.
  rewrite Hfiles. by eapply load_entry_below.
Qed.

End Entries.

(** ** The store stays within the root *)

Section Confinement.

Context `{RT : Runtime} (fs : os.filesystem).

Hypothesis Hwf : os.wf (os.fsroot fs) = true.

#[local] Arguments path.Join : simpl never.
#[local] Arguments path.render : simpl never.
#[local] Arguments path.Clean : simpl never.

Lemma normal_above r ns m out :
  path.normal r (ns ++ m :: out) = true -> path.validName m = true ->
  forallb path.validName ns = true.
Proof.
  intros Hn Hm. induction ns as [|c ns IH]; [done|].
  change ((c :: ns) ++ m :: out)%list with (c :: (ns ++ m :: out))%list in Hn.
  apply normal_cons in Hn as (H1 & H2 & H3 & H4 & Hn).
  specialize (IH Hn). cbn [forallb]. rewrite IH, andb_true_r.
  unfold path.validName.
  rewrite (eqb_false_of_ne _ _ H1), (eqb_false_of_ne _ _ H2), H3.
  destruct (String.eqb c "..") eqn:Hc; [|done].
  apply String.eqb_eq in Hc. destruct (H4 Hc) as [_ Hnext].
  destruct ns as [|t ns].
  - simpl in Hnext. subst m. done.
  - simpl in Hnext. subst t. cbn [forallb] in IH. done.
Qed.

Lemma within_render root ns :
  forallb path.validName ns = true ->
  path.normal (path.rooted root) (ns ++ path.scan root) = true ->
  within root (path.render (path.rooted root) (ns ++ path.scan root)) = true.
Proof.
  intros Hv Hn. destruct (render_facts _ _ Hn) as (Hne & Hr & Hs).
  unfold within. rewrite Clean_render, Hr, Hs by done.
  rewrite (proj2 (String.eqb_neq _ _) Hne), String.eqb_refl, Bool.eqb_reflx.
  rewrite length_app, Nat.add_sub, take_app_length, Hv, andb_true_r.
  simpl. apply bool_decide_eq_true. by exists ns.
Qed.

Lemma loadFiles_directory_keys fuel s s' p fi k :
  loadFiles fs fuel s p = Some (Ok s') ->
  inspect fs p = Ok fi -> os.IsDir fi = true ->
  within p k = false ->
  memoryFileServer.files s' !! k = memoryFileServer.files s !! k.
Proof.
  intros Hload Hi Hdir Hout.
  pose proof (inspect_nonempty fs p fi Hi) as Hp.
  destruct fuel as [|fuel]; [done|].
  rewrite loadFiles_unfold, Hi, Hdir in Hload. cbn [negb] in Hload.
  destruct (os.ReadDir fs p) as [names|] eqn:Hrd; [|done].
  destruct (ReadDir_names fs p names Hwf Hrd) as [Hvalid _].
  rewrite List.Forall_forall in Hvalid.
  pose proof (scan_normal p) as Hnorm.
  assert (Hk : ∀ ns, forallb path.validName ns = true ->
                     path.normal (path.rooted p) (ns ++ path.scan p) = true ->
                     k ≠ path.render (path.rooted p) (ns ++ path.scan p)).
  { intros ns Hv Hns ->. by rewrite within_render in Hout. }
  revert Hload.
  apply (range_invariant
           (fun a b => memoryFileServer.files b !! k = memoryFileServer.files a !! k)).
  - done.
  - intros a b c Hab Hbc. by rewrite Hbc.
  - intros a b m Hm Hbody. pose proof (Hvalid m Hm) as Hvm.
    rewrite Join_child in Hbody by done.
    apply (loadFiles_frame fs Hwf fuel a b _ _ m _ Hnorm Hvm Hbody).
    + intros ns Hns. pose proof (normal_above _ _ _ _ Hns Hvm) as Hv.
      specialize (Hk (ns ++ [m])%list).
      rewrite <- app_assoc in Hk. apply Hk; [|done].
      rewrite forallb_app, Hv. cbn [forallb]. by rewrite Hvm.
    + intros _. by apply (Hk []).
Qed.

(** X10.  When the root is a directory, every key of the store of a started
    server is the cleaned root or a cleaned path below it (its elements
    after the root's are file names, none of them ".."); a request
    whose root-joined path leaves the root therefore never resolves, and
    a GET or HEAD of it is answered with 404. *)
Theorem no_key_outside_root
    fuel name root index fourOhFour forceHTTPS addrHeader s fi :
  newFileServer fs fuel name root index fourOhFour forceHTTPS addrHeader = Some (Ok s) ->
  inspect fs root = Ok fi -> os.IsDir fi = true ->
  (∀ k, within root k = false -> memoryFileServer.files s !! k = None)
  ∧ (∀ r, within root (path.Join [root; http.URL_Path r]) = false ->
          resolveFile s (http.URL_Path r) = None
          ∧ (getOrHead r -> shouldRedirectToHTTPS s r = false ->
             http.Code (ServeHTTP s http.NewRecorder r) = 404%Z)).
Proof.
  intros (s0 & s' & _ & Hempty & Hload & Hfiles & Hroot & _)%newFileServer_inv Hi Hdir.
  assert (Hkeys : ∀ k, within root k = false -> memoryFileServer.files s !! k = None).
  { intros k Hk. rewrite Hfiles.
    rewrite (loadFiles_directory_keys fuel s0 s' root fi k Hload Hi Hdir Hk).
    by rewrite Hempty. }
  split; [exact Hkeys|]. intros r Hout.
  assert (Hres : resolveFile s (http.URL_Path r) = None).
  { unfold resolveFile. rewrite Hroot. by apply Hkeys. }
  split; [exact Hres|]. intros Hm Hg.
  rewrite ServeHTTP_serveFile, serveFile_absent by done. apply serve404_code.
Qed.

End Confinement.

Section ConfinementExamples.

#[local] Existing Instance sample.runtime.

(** Paths that climb out of a root that cleans to "." or to ".." are
    not within it; the paths below such a root are. *)
Lemma within_relative_roots :
  within "." "../secret" = false
  ∧ within ".." "../../../x" = false
  ∧ within ".." "../.." = false
  ∧ within "." "a/b" = true
  ∧ within ".." "../a" = true
  ∧ within "/site" "/site" = true
  ∧ within "/site" "/sitemap" = false.
Proof. evaluated. Qed.

(** [GET /../etc/passwd] on the server of [/site]: the joined path is
    [/etc/passwd], outside the root. *)
Lemma no_key_outside_root_witness :
  let s := sample.server sample.site "" false in
  let r := sample.request "GET" "/../etc/passwd" [] in
  path.Join ["/site"; http.URL_Path r] = "/etc/passwd"
  ∧ http.Code (ServeHTTP s http.NewRecorder r) = 404%Z.
Proof.
  cbv zeta. split; [vm_compute; reflexivity|].
  assert (Hi : inspect sample.site "/site"
               = Ok (os.info (os.Directory
                   [("docs", os.Directory
                       [("index.html", sample.file "<p>docs</p>" sample.T0)] sample.T0);
                    ("hello.txt", sample.file "hi" sample.T0);
                    ("index.html", sample.file "<h1>home</h1>" sample.T0);
                    ("missing.html", sample.file "not found" sample.T0);
                    ("zeros.txt",
                     sample.file "0000000000000000000000000000000000000000" sample.T0)]
                   sample.T0)))
    by (vm_compute; reflexivity).
  assert (Hnew : newFileServer sample.site 8 "" "/site" "index.html" "" false ""
                 = Some (Ok (sample.server sample.site "" false)))
    by (vm_compute; reflexivity).
  destruct (no_key_outside_root sample.site eq_refl 8 "" "/site" "index.html" "" false ""
              (sample.server sample.site "" false) _ Hnew Hi eq_refl) as [_ Hreq].
  destruct (Hreq (sample.request "GET" "/../etc/passwd" [])) as [_ Hcode].
  - vm_compute. reflexivity.
  - apply Hcode; [left; reflexivity | vm_compute; reflexivity].
Defined.

(** The entry [index.html] of [/site/docs]: stored under
    [/site/docs/index.html] with the time [T0]. *)
Lemma every_file_is_stored_witness :
  let s := sample.server sample.site "" false in
  ∃ f, memoryFileServer.files s !! "/site/docs/index.html" = Some f
       ∧ siteFile.lastModified f = sample.T0.
Proof.
  cbv zeta.
  assert (Hi : inspect sample.site "/site/docs"
               = Ok (os.info (os.Directory
                   [("index.html", sample.file "<p>docs</p>" sample.T0)] sample.T0)))
    by (vm_compute; reflexivity).
  assert (Hrd : os.ReadDir sample.site "/site/docs" = Ok ["index.html"])
    by (vm_compute; reflexivity).
  assert (Hnew : newFileServer sample.site 8 "" "/site" "index.html" "" false ""
                 = Some (Ok (sample.server sample.site "" false)))
    by (vm_compute; reflexivity).
  destruct (every_file_is_stored sample.site eq_refl 8 "" "/site" "index.html" "" false ""
              (sample.server sample.site "" false) "/site/docs" _ _ "index.html"
              Hnew site_descends_docs Hi eq_refl Hrd (or_introl eq_refl))
    as (fi' & Hi' & Hfile).
  assert (Hfi : fi' = os.info (sample.file "<p>docs</p>" sample.T0)).
  { assert (Hc : inspect sample.site (path.Join ["/site/docs"; "index.html"])
                 = Ok (os.info (sample.file "<p>docs</p>" sample.T0)))
      by (vm_compute; reflexivity).
    congruence. }
  subst fi'. destruct (Hfile eq_refl) as (f & _ & Hkey).
  eexists. split; [exact Hkey | reflexivity].
Defined.

End ConfinementExamples.

(** ** Termination of the traversal on trees without symbolic links *)

Section LinkFree.

Implicit Types (n m root : os.node) (es : list (string * os.node))
  (cur todo names : list string).

Lemma find_linkFree es c ch :
  forallb (fun e => linkFree (snd e)) es = true -> os.find c es = Some ch ->
  linkFree ch = true.
Proof.
  induction es as [|[k v] es IH]; [done|]. simpl.
  intros [Hv Hes]%andb_true_iff.
  destruct (String.eqb k c); [by intros [= <-] | by apply IH].
Qed.

Lemma find_height es mt c ch :
  os.find c es = Some ch -> treeHeight ch < treeHeight (os.Directory es mt).
Proof.
  simpl. induction es as [|[k v] es IH]; [done|]. simpl.
  destruct (String.eqb k c); [intros [= <-]; lia|].
  intros Hf. specialize (IH Hf). lia.
Qed.

Lemma find_In es c ch : os.find c es = Some ch -> In c (map fst es).
Proof.
  induction es as [|[k v] es IH]; [done|]. simpl.
  destruct (String.eqb k c) eqn:Hk; [|by right; apply IH].
  apply String.eqb_eq in Hk. by left.
Qed.

Lemma In_find es c : In c (map fst es) -> is_Some (os.find c es).
Proof.
  induction es as [|[k v] es IH]; [done|]. simpl.
  destruct (String.eqb k c) eqn:Hk; [by eexists|].
  intros [Hkc | Hin]; [|by apply IH].
  apply String.eqb_neq in Hk. done.
Qed.

Lemma get_linkFree n l m : linkFree n = true -> os.get n l = Some m -> linkFree m = true.
Proof.
  revert n. induction l as [|c l IH]; intros n Hn; simpl; [by intros [= <-]|].
  destruct n as [| es mt |]; try done.
  destruct (os.find c es) as [ch|] eqn:Hf; [|done].
  apply IH. by eapply find_linkFree.
Qed.

Lemma get_height n l m :
  os.get n l = Some m -> length l + treeHeight m <= treeHeight n.
Proof.
  revert n. induction l as [|c l IH]; intros n; simpl; [intros [= <-]; lia|].
  destruct n as [| es mt |]; try done.
  destruct (os.find c es) as [ch|] eqn:Hf; [|done].
  intros Hg. specialize (IH _ Hg).
  pose proof (find_height es mt c ch Hf). simpl in *. lia.
Qed.

Lemma get_snoc n l c :
  os.get n (l ++ [c])
  = match os.get n l with
    | Some (os.Directory es _) => os.find c es
    | _ => None
    end.
Proof.
  revert n. induction l as [|a l IH]; intros n; simpl.
  - destruct n as [| es mt |]; try done. by destruct (os.find c es).
  - destruct n as [| es mt |]; try done.
    destruct (os.find a es) as [ch|]; [apply IH | done].
Qed.

Lemma chdir_name cur c : path.validName c = true -> chdir cur c = (cur ++ [c])%list.
Proof.
  intros (H1 & H2 & H3 & _)%validName_inv. unfold chdir.
  by rewrite (eqb_false_of_ne _ _ H1), (eqb_false_of_ne _ _ H2),
    (eqb_false_of_ne _ _ H3).
Qed.

(** Without symbolic links, resolution walks the elements one by one. *)
Lemma walk_linkFree links root follow cur todo n :
  linkFree root = true ->
  os.walk links root follow cur todo = Ok n ->
  os.get root (fold_left chdir todo cur) = Some n.
Proof.
  intros Hroot. revert cur.
  induction todo as [|c rest IH]; intros cur; rewrite walk_unfold.
  - simpl. by destruct (os.get root cur) as [m|]; [intros [= <-]|].
  - destruct (os.get root cur) as [[| es mt |]|] eqn:Hg; try done.
    simpl fold_left. unfold chdir at 2.
    destruct (_ || _); [by apply IH|].
    destruct (String.eqb c ".."); [by apply IH|].
    destruct (os.find c es) as [ch|] eqn:Hf; [|done].
    assert (Hch : linkFree ch = true).
    { eapply find_linkFree; [|exact Hf].
      pose proof (get_linkFree root cur _ Hroot Hg) as Hd. exact Hd. }
    destruct ch as [| |target mt']; [by apply IH | by apply IH | done].
Qed.

Lemma walk_names links root follow cur names n :
  linkFree root = true ->
  Forall (fun c : string => path.validName c = true) names ->
  os.get root (cur ++ names) = Some n ->
  os.walk links root follow cur names = Ok n.
Proof.
  intros Hroot Hnames. revert cur.
  induction Hnames as [|c rest Hc Hrest IH]; intros cur; rewrite walk_unfold.
  - rewrite app_nil_r. by intros ->.
  - intros Hg.
    change (cur ++ c :: rest)%list with (cur ++ [c] ++ rest)%list in Hg.
    rewrite app_assoc in Hg.
    assert (Hcur : ∃ es mt ch, os.get root cur = Some (os.Directory es mt)
                               ∧ os.find c es = Some ch).
    { clear IH. revert Hg. generalize root. induction cur as [|a cur IHc]; intros r0.
      - simpl. destruct r0 as [| es mt |]; try done.
        destruct (os.find c es) as [ch|] eqn:Hf; [|done]. by exists es, mt, ch.
      - simpl. destruct r0 as [| es mt |]; try done.
        destruct (os.find a es) as [ch|]; [apply IHc | done]. }
    destruct Hcur as (es & mt & ch & Hcur & Hf). rewrite Hcur.
    destruct (validName_inv c Hc) as (H1 & H2 & H3 & _).
    rewrite (eqb_false_of_ne _ _ H1), (eqb_false_of_ne _ _ H2),
      (eqb_false_of_ne _ _ H3), Hf. simpl.
    assert (Hch : linkFree ch = true).
    { eapply find_linkFree; [|exact Hf].
      pose proof (get_linkFree root cur _ Hroot Hcur) as Hd. exact Hd. }
    destruct ch as [| |target mt']; [by apply IH | by apply IH | done].
Qed.

(** For a rooted path, the scan of [Clean] and the walk agree on where
    they stand. *)
Lemma scan_chdir comps out :
  Forall slashfree comps -> path.normal true out = true ->
  rev (fold_left (path.step true) comps out) = fold_left chdir comps (rev out).
Proof.
  intros Hc. revert out. induction Hc as [|c comps Hs Hc IH]; intros out Hn; [done|].
  simpl fold_left.
  rewrite IH by (by apply step_normal). f_equal.
  unfold path.step, chdir.
  destruct (String.eqb c "") eqn:H1; [done|].
  destruct (String.eqb c ".") eqn:H2; [done|]. simpl.
  destruct (String.eqb c "..") eqn:H3; [|done].
  destruct out as [|top rest]; [done|].
  apply normal_cons in Hn as (_ & _ & _ & Hdd & Hrest).
  destruct (String.eqb top "..") eqn:Ht.
  - apply String.eqb_eq in Ht. by destruct (Hdd Ht).
  - simpl. by rewrite removelast_last.
Qed.

Lemma namei_scan fs follow p n :
  linkFree (os.fsroot fs) = true -> path.rooted p = true ->
  os.namei fs follow p = Ok n ->
  os.get (os.fsroot fs) (rev (path.scan p)) = Some n.
Proof.
  intros Hlf Hr. unfold os.namei. destruct (String.eqb p ""); [done|].
  rewrite Hr. intros Hw%walk_linkFree; [|done].
  unfold path.scan. rewrite Hr, scan_chdir; [done | apply split_elements | done].
Qed.

Lemma normal_rooted_names l :
  path.normal true l = true -> Forall (fun c : string => path.validName c = true) l.
Proof.
  induction l as [|c l IH]; [constructor|].
  intros Hn. pose proof Hn as (H1 & H2 & H3 & H4 & H5)%normal_cons.
  constructor; [|by apply IH].
  unfold path.validName.
  rewrite (eqb_false_of_ne _ _ H1), (eqb_false_of_ne _ _ H2), H3.
  destruct (String.eqb c "..") eqn:Hc; [|done].
  apply String.eqb_eq in Hc. by destruct (H4 Hc).
Qed.

Lemma walk_empty links root follow cur rest es mt :
  os.get root cur = Some (os.Directory es mt) ->
  os.walk links root follow cur ("" :: rest) = os.walk links root follow cur rest.
Proof. intros H. rewrite walk_unfold, H. reflexivity. Qed.

Lemma namei_render fs follow l c n :
  linkFree (os.fsroot fs) = true -> path.normal true (c :: l) = true ->
  os.get (os.fsroot fs) (rev (c :: l)) = Some n ->
  os.namei fs follow (path.render true (c :: l)) = Ok n.
Proof.
  intros Hlf Hn Hg.
  destruct (render_facts true (c :: l) Hn) as (Hne & Hr & _).
  unfold os.namei. rewrite (eqb_false_of_ne _ _ Hne), Hr.
  assert (Hsplit : path.split (path.render true (c :: l)) = "" :: rev (c :: l)).
  { unfold path.render. rewrite app_cons. change ("" +:+ ?x) with x.
    change (path.split (String "/" ?x)) with ("" :: path.split x).
    f_equal. apply split_concat.
    - simpl. by destruct (rev l).
    - apply Forall_rev. by apply (normal_slashfree true). }
  rewrite Hsplit.
  assert (Hroot : ∃ es mt, os.fsroot fs = os.Directory es mt).
  { simpl in Hg. destruct (rev l ++ [c])%list as [|a t] eqn:Hl.
    - by destruct (rev l).
    - simpl in Hg. destruct (os.fsroot fs) as [| es mt |]; try done. by exists es, mt. }
  destruct Hroot as (es & mt & Hroot).
  rewrite (walk_empty _ _ _ [] _ es mt) by (simpl; by rewrite Hroot).
  apply walk_names; [done | | done].
  apply Forall_rev. by apply normal_rooted_names.
Qed.

End LinkFree.

Section Returns.

Context `{RT : Runtime} (fs : os.filesystem).

Hypothesis Hwf : os.wf (os.fsroot fs) = true.
Hypothesis Hlf : linkFree (os.fsroot fs) = true.

Lemma child_resolves p es mt c :
  path.rooted p = true ->
  os.namei fs true p = Ok (os.Directory es mt) ->
  In c (map fst es) -> path.validName c = true ->
  ∃ ch, os.namei fs true (path.Join [p; c]) = Ok ch
        ∧ treeHeight ch < treeHeight (os.Directory es mt)
        ∧ path.rooted (path.Join [p; c]) = true.
Proof.
  intros Hr Hn Hin Hv.
  assert (Hp : p ≠ "") by (by destruct p).
  pose proof (namei_scan fs true p _ Hlf Hr Hn) as Hg.
  destruct (In_find es c Hin) as [ch Hf].
  pose proof (scan_normal p) as Hnorm. rewrite Hr in Hnorm.
  pose proof (normal_push true _ c Hnorm Hv) as Hnorm'.
  exists ch. rewrite Join_child, Hr by done.
  split; [|split].
  - apply namei_render; [done..|]. simpl rev. by rewrite get_snoc, Hg.
  - by eapply find_height.
  - by destruct (render_facts true _ Hnorm') as (_ & Hrr & _).
Qed.

Lemma range_returns
    (body : memoryFileServer.t -> string -> option (result memoryFileServer.t))
    names s :
  (∀ s (c : string), In c names -> body s c ≠ None) -> range body names s ≠ None.
Proof.
  revert s. induction names as [|n names IH]; intros s Hb; [done|].
  rewrite range_cons. destruct (body s n) as [[s'|e]|] eqn:Hn.
  - apply IH. intros ? ? ?. apply Hb. by right.
  - done.
  - exfalso. apply (Hb s n); [by left | done].
Qed.

Lemma loadFiles_returns fuel s p node :
  path.rooted p = true -> os.namei fs true p = Ok node ->
  treeHeight node < fuel ->
  loadFiles fs fuel s p ≠ None.
Proof.
  revert s p node. induction fuel as [|fuel IH]; intros s p node Hr Hn Hh; [lia|].
  rewrite loadFiles_unfold.
  destruct (inspect fs p) as [fi|]; [|done].
  destruct (negb (os.IsDir fi)).
  { by destruct (readFile fs p _). }
  destruct (os.ReadDir fs p) as [names|] eqn:Hrd; [|done].
  destruct (ReadDir_names fs p names Hwf Hrd) as [Hvalid _].
  rewrite List.Forall_forall in Hvalid.
  unfold os.ReadDir in Hrd. rewrite Hn in Hrd.
  destruct node as [| es mt |]; try done. injection Hrd as <-.
  apply range_returns. intros s' c Hin.
  destruct (child_resolves p es mt c Hr Hn Hin (Hvalid c Hin)) as (ch & Hch & Hlt & Hrc).
  apply (IH s' _ ch Hrc Hch). lia.
Qed.

(** X12.  On a file tree without symbolic links, startup from an
    absolute root path always returns, with a server or with an error:
    the traversal goes no deeper than the tree is high. *)
Theorem startup_returns fuel name (root : string) index fourOhFour forceHTTPS addrHeader :
  path.rooted root = true ->
  treeHeight (os.fsroot fs) < fuel ->
  ∃ r, newFileServer fs fuel name root index fourOhFour forceHTTPS addrHeader = Some r.
Proof.
  intros Hr Hh.
  assert (Hload : ∀ s, loadFiles fs fuel s root ≠ None).
  { intros s. destruct (os.namei fs true root) as [node|e] eqn:Hn.
    - apply (loadFiles_returns fuel s root node Hr Hn).
      pose proof (namei_scan fs true root _ Hlf Hr Hn) as Hg.
      apply get_height in Hg. lia.
    - destruct fuel as [|fuel]; [lia|]. rewrite loadFiles_unfold.
      destruct (inspect fs root) as [fi|]; [|done].
      destruct (negb (os.IsDir fi)).
      + by destruct (readFile fs root _).
      + unfold os.ReadDir. by rewrite Hn. }
  unfold newFileServer.
  destruct (loadFiles fs fuel _ root) as [[s'|e]|] eqn:Hl.
  - by eexists.
  - by eexists.
  - by apply Hload in Hl.
Qed.

End Returns.

Section ReturnsExamples.

#[local] Existing Instance sample.runtime.

(** The tree of [sample.site] is three directories high. *)
Lemma startup_returns_witness :
  ∃ r, newFileServer sample.site 4 "" "/site" "index.html" "" false "" = Some r.
Proof.
  apply (startup_returns sample.site eq_refl eq_refl 4 "" "/site" "index.html" "" false "").
  - reflexivity.
  - vm_compute. lia.
Defined.

End ReturnsExamples.
